(** * CSV analyzer: a shallow embedding of the Python bridge layer

    The development follows the layout of the repository:
    - [analyzer/utils.py]        (class [DataProcessor]),
    - [analyzer/database.py] and [csv_analyzer/database.py]
                                  (class [DatabaseManager]),
    - [analyzer/loader.py]       (class [DataLoader]),
    - [csv_analyzer/analyzer.py] (class [DataAnalyzer]).

    Python values are a small tagged union with the class hierarchy that
    [isinstance] consults; stateful code threads a [world] (the
    [DatabaseManager] object and the staged file [/tmp/data.csv]) through a
    state-and-exception monad; the analytical engine is a reference model of
    the cursor contract the code consumes, for the statements the sources
    build on a table name that is a plain identifier. *)

From Stdlib Require Import ZArith String Ascii List Bool Lia.
From Stdlib Require Import DecimalString.
From Stdlib Require Import Floats.SpecFloat.
From stdpp Require Import base option list strings gmap.

Local Open Scope string_scope.

(* ===================================================================== *)
(** * Python values                                                       *)
(* ===================================================================== *)

(** The exceptions the code meets, and the outcome of a call. *)
Inductive exn :=
| RuntimeError (msg : string)
| ValueError (msg : string)
| TypeError (msg : string)
| IndexError (msg : string)
| DuckDBError (msg : string).

Inductive outcome (A : Type) :=
| Return (a : A)
| Raise (e : exn).
Arguments Return {A} a.
Arguments Raise {A} e.

Fixpoint mapM {A B} (f : A -> outcome B) (l : list A) : outcome (list B) :=
  match l with
  | [] => Return []
  | a :: l' =>
      match f a with
      | Raise e => Raise e
      | Return b =>
          match mapM f l' with
          | Raise e => Raise e
          | Return bs => Return (b :: bs)
          end
      end
  end.

(** [decimal.Decimal]: a finite value (-1)^sign * coefficient *
    10^exponent, an infinity, a quiet NaN or a signalling NaN (the NaNs
    with their diagnostic payload). *)
Inductive decimal :=
| Decimal (sign : bool) (coeff : N) (exp : Z)
| DecimalInfinity (sign : bool)
| DecimalNaN (sign : bool) (payload : N)
| DecimalSNaN (sign : bool) (payload : N).

(** A Python [float] is an IEEE 754 binary64 datum. *)
Abbreviation float := spec_float.

(** The cell values a cursor hands out.  [VObject cls text] stands for any
    other object (a [datetime.date], a [datetime.datetime], a [uuid.UUID],
    ...): [cls] is the name of its class and [text] what its [__str__]
    returns. *)
Inductive value :=
| VNone
| VBool (b : bool)
| VInt (z : Z)
| VFloat (f : float)
| VDecimal (d : decimal)
| VStr (s : string)
| VObject (cls : string) (text : string).

(** The classes [isinstance] is asked about. *)
Inductive pyclass :=
| NoneType | bool_cls | int_cls | float_cls | Decimal_cls | str_cls
| other_cls (name : string).

Definition type_of (v : value) : pyclass :=
  match v with
  | VNone => NoneType
  | VBool _ => bool_cls
  | VInt _ => int_cls
  | VFloat _ => float_cls
  | VDecimal _ => Decimal_cls
  | VStr _ => str_cls
  | VObject cls _ => other_cls cls
  end.

Definition pyclass_eqb (c d : pyclass) : bool :=
  match c, d with
  | NoneType, NoneType | bool_cls, bool_cls | int_cls, int_cls
  | float_cls, float_cls | Decimal_cls, Decimal_cls | str_cls, str_cls => true
  | other_cls a, other_cls b => String.eqb a b
  | _, _ => false
  end.

(** [bool] is a subclass of [int]; the other classes here are unrelated. *)
Definition issubclass (c d : pyclass) : bool :=
  pyclass_eqb c d ||
  match c, d with
  | bool_cls, int_cls => true
  | _, _ => false
  end.

(** [isinstance(v, (c1, ..., cn))]. *)
Definition isinstance (v : value) (classes : list pyclass) : bool :=
  existsb (issubclass (type_of v)) classes.

(** [v is None]. *)
Definition is_None (v : value) : bool :=
  match v with VNone => true | _ => false end.

(** [hasattr(v, '__str__')]: [object] defines [__str__], so every value has
    it. *)
Definition hasattr_str (v : value) : bool := true.

(** [len(l)] *)
Definition len {A} (l : list A) : Z := Z.of_nat (length l).

(** Truth value of a list: [not l] holds exactly for the empty list. *)
Definition truthy {A} (l : list A) : bool :=
  match l with [] => false | _ :: _ => true end.

(** ** [float(Decimal)]

    A finite value is rounded to the nearest binary64, ties to even; a
    negative exponent divides the coefficient by a power of ten with a
    single rounding. *)
Definition float_of_finite (s : bool) (coeff : N) (exp : Z) : float :=
  let m := Z.of_N coeff in
  if (0 <=? exp)%Z then
    binary_normalize 53 1024 (cond_Zopp s (m * 10 ^ exp)%Z) 0 s
  else
    match m with
    | Zpos _ =>
        let '(q, e, l) :=
          SFdiv_core_binary 53 1024 m 0 (10 ^ (- exp))%Z 0 in
        binary_round_aux 53 1024 s q e l
    | _ => S754_zero s
    end.

(** An infinity converts to the float infinity and a quiet NaN to the
    float NaN; a signalling NaN raises ValueError. *)
Definition float_of_decimal (d : decimal) : outcome float :=
  match d with
  | Decimal s coeff exp => Return (float_of_finite s coeff exp)
  | DecimalInfinity s => Return (S754_infinity s)
  | DecimalNaN _ _ => Return S754_nan
  | DecimalSNaN _ _ => Raise (ValueError "cannot convert signaling NaN to float")
  end.

(** The one kind of cell [float] refuses. *)
Definition is_signalling_nan (v : value) : bool :=
  match v with
  | VDecimal (DecimalSNaN _ _) => true
  | _ => false
  end.

(** ** Case mapping

    [str.upper()] and [str.lower()] as they act on ASCII text; the command
    names and table names of the sources are ASCII, and a text with other
    cased letters is outside what is modelled. *)
Definition is_upper (c : ascii) : bool :=
  let n := nat_of_ascii c in ((65 <=? n) && (n <=? 90))%nat.
Definition is_lower (c : ascii) : bool :=
  let n := nat_of_ascii c in ((97 <=? n) && (n <=? 122))%nat.
Definition to_upper (c : ascii) : ascii :=
  if is_lower c then ascii_of_nat (nat_of_ascii c - 32) else c.
Definition to_lower (c : ascii) : ascii :=
  if is_upper c then ascii_of_nat (nat_of_ascii c + 32) else c.

Fixpoint upper (s : string) : string :=
  match s with
  | EmptyString => EmptyString
  | String c s' => String (to_upper c) (upper s')
  end.

Fixpoint lower (s : string) : string :=
  match s with
  | EmptyString => EmptyString
  | String c s' => String (to_lower c) (lower s')
  end.

(** ** [str(v)]

    The texts of [float] and [Decimal] are the runtime's business (shortest
    round-trip digits, scientific notation); they are taken as parameters. *)
Class PyRuntime := {
  float_repr : float -> string;
  decimal_str : decimal -> string
}.

Definition int_str (z : Z) : string := NilEmpty.string_of_int (Z.to_int z).

Definition py_str `{PyRuntime} (v : value) : string :=
  match v with
  | VNone => "None"
  | VBool true => "True"
  | VBool false => "False"
  | VInt z => int_str z
  | VFloat f => float_repr f
  | VDecimal d => decimal_str d
  | VStr s => s
  | VObject _ text => text
  end.

(* ===================================================================== *)
(** * analyzer/utils.py: class DataProcessor                              *)
(* ===================================================================== *)

(** The values that may cross the boundary: null, a Python [int] (a
    [bool] is one), a float, a text. *)
Definition normalized (v : value) : bool :=
  match v with
  | VNone | VBool _ | VInt _ | VFloat _ | VStr _ => true
  | VDecimal _ | VObject _ _ => false
  end.

(** The dictionary [process_query_result] builds, one field per key. *)
Record payload := Payload {
  data : list (list value);
  columns : list string;
  row_count : Z;
  column_count : Z
}.

Module analyzer_utils.

(** [DataProcessor._convert_cell_value]: the [if]/[elif] chain, in the
    order of the source.  Only [float(cell)] can raise. *)
Definition _convert_cell_value `{PyRuntime} (cell : value) : outcome value :=
  if is_None cell then Return VNone
  else if isinstance cell [Decimal_cls] then
    (* float(cell); the test has shown cell to be a Decimal *)
    match cell with
    | VDecimal d =>
        match float_of_decimal d with
        | Return f => Return (VFloat f)
        | Raise e => Raise e
        end
    | _ => Return cell
    end
  else if isinstance cell [int_cls; float_cls] then Return cell
  else if hasattr_str cell then Return (VStr (py_str cell))
  else Return cell.

(** [DataProcessor.process_query_result]: the two nested loops append one
    converted cell per cell and one converted row per row; the first cell
    whose conversion raises, rows first and cells within a row, ends the
    call with that exception. *)
Definition process_query_result `{PyRuntime}
    (result_data : list (list value)) (columns : list string) : outcome payload :=
  match mapM (mapM _convert_cell_value) result_data with
  | Raise e => Raise e
  | Return processed_data =>
      Return {| data := processed_data;
                columns := columns;
                row_count := len processed_data;
                column_count := len columns |}
  end.

(** The loop of [validate_data_format]: the first row whose length
    differs from [expected_cols] returns [False]. *)
Fixpoint rows_have_width (expected_cols : Z) (data : list (list value)) : bool :=
  match data with
  | [] => true
  | row :: rest =>
      if negb (len row =? expected_cols)%Z then false
      else rows_have_width expected_cols rest
  end.

(** [DataProcessor.validate_data_format] *)
Definition validate_data_format
    (data : list (list value)) (columns : list string) : bool :=
  if negb (truthy data) || negb (truthy columns) then false
  else
    let expected_cols := len columns in
    rows_have_width expected_cols data.

End analyzer_utils.

(* ===================================================================== *)
(** * Exceptions, the world, and the monad of stateful code               *)
(* ===================================================================== *)

(** An engine-resident relation: its ordered schema of (name, engine type)
    pairs and its rows. *)
Record table := Table {
  tbl_schema : list (string * string);
  tbl_rows : list (list value)
}.

(** What [conn.execute] returns: the rows still to fetch and the column
    metadata, one (name, type code) entry per result column. *)
Record cursor := Cursor {
  description : list (string * string);
  cursor_rows : list (list value)
}.

Definition fetchall (c : cursor) : list (list value) := cursor_rows c.

(** [fetchone()] is [None] when the result has no row. *)
Definition fetchone (c : cursor) : option (list value) := head (cursor_rows c).

(** [row[i]] on what [fetchone] or a row iteration yielded. *)
Definition subscript (row : option (list value)) (i : nat) : outcome value :=
  match row with
  | None => Raise (TypeError "'NoneType' object is not subscriptable")
  | Some cells =>
      match cells !! i with
      | Some v => Return v
      | None => Raise (IndexError "tuple index out of range")
      end
  end.

(** The object [DatabaseManager]: an open connection is the catalogue of
    the in-memory database behind it. *)
Record DatabaseManager := {
  conn : option (gmap string table);
  table_name : string
}.

(** The mutable state the code reaches: the manager shared by the loader
    and the analyzer, and the staged file [/tmp/data.csv]. *)
Record world := World {
  db_manager : DatabaseManager;
  tmp_data_csv : option string
}.

(** Stateful code: a computation maps the world to an outcome and the
    world it leaves.  The handlers of the sources that print a message and
    raise the same exception again ([except Exception as e: print(...);
    raise e]) are the identity on such computations, and the [print]
    calls leave the world alone; neither is written out below. *)
Definition M (A : Type) : Type := world -> outcome A * world.

Definition ret {A} (a : A) : M A := fun w => (Return a, w).
Definition raise {A} (e : exn) : M A := fun w => (Raise e, w).
Definition bind {A B} (m : M A) (k : A -> M B) : M B :=
  fun w =>
    match m w with
    | (Return a, w') => k a w'
    | (Raise e, w') => (Raise e, w')
    end.
Definition lift {A} (r : outcome A) : M A := fun w => (r, w).

(** [try: m  except: handler], the bare [except] that catches everything. *)
Definition try_except {A} (m : M A) (handler : M A) : M A :=
  fun w =>
    match m w with
    | (Return a, w') => (Return a, w')
    | (Raise _, w') => handler w'
    end.

Notation "'do' x <- m ;; k" := (bind m (fun x => k))
  (at level 10, x name, m at level 99, k at level 200).
Notation "'run' m ;; k" := (bind m (fun _ => k))
  (at level 10, m at level 99, k at level 200).

Definition set_conn (c : option (gmap string table)) (w : world) : world :=
  {| db_manager := {| conn := c; table_name := table_name (db_manager w) |};
     tmp_data_csv := tmp_data_csv w |}.

Definition write_tmp_data_csv (text : string) (w : world) : world :=
  {| db_manager := db_manager w; tmp_data_csv := Some text |}.

(* ===================================================================== *)
(** * The analytical engine: a reference model of the cursor contract     *)
(* ===================================================================== *)

(** The engine is consumed through [connect], [execute] and the cursor.
    The model covers the six statements the sources build, each on a
    table name that is a plain identifier: unquoted, no reserved word,
    compared without regard to case.  Every other text is refused here,
    where the engine itself would go on to read quoted names, several
    statements separated by semicolons and the rest of its dialect; so a
    text pasted into a statement is followed only as far as it is such a
    table name.  What the engine computes on its own (the CSV sniffer
    behind [read_csv_auto], the statistics of SUMMARIZE) stays a
    parameter. *)

(** The values of the engine's DECIMAL type are finite: a cell it hands
    out is never an infinite or NaN [Decimal]. *)
Definition engine_value (v : value) : bool :=
  match v with
  | VDecimal (Decimal _ _ _) => true
  | VDecimal _ => false
  | _ => true
  end.

Class Engine := {
  read_csv_auto : string -> option table;
  summarize_rows : table -> list (list value);
  summarize_rows_values :
    forall tb, Forall (Forall (fun v => engine_value v = true)) (summarize_rows tb)
}.

Module duckdb.

(** [strip_prefix p s] is [Some r] when [s = p ++ r]. *)
Fixpoint strip_prefix (p s : string) : option string :=
  match p with
  | EmptyString => Some s
  | String a p' =>
      match s with
      | EmptyString => None
      | String b s' => if Ascii.eqb a b then strip_prefix p' s' else None
      end
  end.

(** [strip_suffix q s] is [Some r] when [s = r ++ q]. *)
Fixpoint strip_suffix (q s : string) : option string :=
  if String.eqb s q then Some EmptyString
  else
    match s with
    | EmptyString => None
    | String c s' => option_map (String c) (strip_suffix q s')
    end.

Definition is_letter (c : ascii) : bool :=
  let n := nat_of_ascii c in
  ((65 <=? n) && (n <=? 90) || (97 <=? n) && (n <=? 122) || (n =? 95))%nat.

Definition is_digit (c : ascii) : bool :=
  let n := nat_of_ascii c in ((48 <=? n) && (n <=? 57))%nat.

Fixpoint all_ident_chars (s : string) : bool :=
  match s with
  | EmptyString => true
  | String c s' => (is_letter c || is_digit c) && all_ident_chars s'
  end.

(** The reserved words of the dialect, which no unquoted table name can
    be, in upper case. *)
Definition reserved_words : list string :=
  ["ALL"; "ANALYSE"; "ANALYZE"; "AND"; "ANY"; "ARRAY"; "AS"; "ASC";
   "ASYMMETRIC"; "BOTH"; "CASE"; "CAST"; "CHECK"; "COLLATE"; "COLUMN";
   "CONSTRAINT"; "CREATE"; "DEFAULT"; "DEFERRABLE"; "DESC"; "DESCRIBE";
   "DISTINCT"; "DO"; "ELSE"; "END"; "EXCEPT"; "FALSE"; "FETCH"; "FOR";
   "FOREIGN"; "FROM"; "GROUP"; "HAVING"; "IN"; "INITIALLY"; "INTERSECT";
   "INTO"; "LAMBDA"; "LATERAL"; "LEADING"; "LIMIT"; "NOT"; "NULL"; "OFFSET";
   "ON"; "ONLY"; "OR"; "ORDER"; "PIVOT"; "PIVOT_LONGER"; "PIVOT_WIDER";
   "PLACING"; "PRIMARY"; "QUALIFY"; "REFERENCES"; "RETURNING"; "SELECT";
   "SHOW"; "SOME"; "SUMMARIZE"; "SYMMETRIC"; "TABLE"; "THEN"; "TO";
   "TRAILING"; "TRUE"; "UNION"; "UNIQUE"; "UNPIVOT"; "USING"; "VARIADIC";
   "WHEN"; "WHERE"; "WINDOW"; "WITH"].

Definition is_reserved (s : string) : bool :=
  existsb (String.eqb (upper s)) reserved_words.

(** An unquoted table name: a letter or underscore, then letters, digits
    and underscores, and no reserved word. *)
Definition is_identifier (s : string) : bool :=
  match s with
  | EmptyString => false
  | String c s' => is_letter c && all_ident_chars s' && negb (is_reserved s)
  end.

Inductive statement :=
| SelectOne (t : string)        (* SELECT 1 FROM t LIMIT 1 *)
| SelectCount (t : string)      (* SELECT count( * ) FROM t *)
| Describe (t : string)         (* DESCRIBE t *)
| Summarize (t : string)        (* SUMMARIZE t *)
| DropIfExists (t : string)     (* DROP TABLE IF EXISTS t *)
| CreateFromCsv (t : string).   (* CREATE TABLE t AS SELECT * FROM read_csv_auto('/tmp/data.csv') *)

Definition on_table (k : string -> statement) (t : string) : option statement :=
  if is_identifier t then Some (k t) else None.

Definition parse (sql : string) : option statement :=
  match strip_prefix "SELECT 1 FROM " sql with
  | Some rest => t ← strip_suffix " LIMIT 1" rest; on_table SelectOne t
  | None =>
  match strip_prefix "SELECT count(*) FROM " sql with
  | Some t => on_table SelectCount t
  | None =>
  match strip_prefix "DESCRIBE " sql with
  | Some t => on_table Describe t
  | None =>
  match strip_prefix "SUMMARIZE " sql with
  | Some t => on_table Summarize t
  | None =>
  match strip_prefix "DROP TABLE IF EXISTS " sql with
  | Some t => on_table DropIfExists t
  | None =>
  match strip_prefix "CREATE TABLE " sql with
  | Some rest =>
      t ← strip_suffix " AS SELECT * FROM read_csv_auto('/tmp/data.csv')" rest;
      on_table CreateFromCsv t
  | None => None
  end end end end end end.

Definition varchar (name : string) : string * string := (name, "VARCHAR").

Definition describe_columns : list (string * string) :=
  map varchar ["column_name"; "column_type"; "null"; "key"; "default"; "extra"].

Definition describe_row (col : string * string) : list value :=
  [VStr (fst col); VStr (snd col); VStr "YES"; VNone; VNone; VNone].

Definition summarize_columns : list (string * string) :=
  [varchar "column_name"; varchar "column_type"; varchar "min"; varchar "max";
   ("approx_unique", "BIGINT"); varchar "avg"; varchar "std"; varchar "q25";
   varchar "q50"; varchar "q75"; ("count", "BIGINT");
   ("null_percentage", "DECIMAL(9,2)")].

Definition catalog_error (t : string) : exn :=
  DuckDBError ("Catalog Error: Table with name " +:+ t +:+ " does not exist!").

(** The catalogue compares names without regard to case: it is keyed by
    the name in lower case. *)
Definition key (t : string) : string := lower t.

(** Run a statement that reads table [t]. *)
Definition reading {A} (db : gmap string table) (t : string)
    (k : table -> A) : outcome A * gmap string table :=
  match db !! key t with
  | Some tb => (Return (k tb), db)
  | None => (Raise (catalog_error t), db)
  end.

(** [connect(':memory:')]: a fresh database with no table. *)
Definition connect : gmap string table := ∅.

(** [conn.execute(sql)], with the staged file the engine can read. *)
Definition execute `{Engine} (file : option string) (db : gmap string table)
    (sql : string) : outcome cursor * gmap string table :=
  match parse sql with
  | None => (Raise (DuckDBError "Parser Error: syntax error"), db)
  | Some (SelectOne t) =>
      reading db t (fun tb =>
        Cursor [("1", "INTEGER")] (map (fun _ => [VInt 1]) (take 1 (tbl_rows tb))))
  | Some (SelectCount t) =>
      reading db t (fun tb =>
        Cursor [("count_star()", "BIGINT")] [[VInt (len (tbl_rows tb))]])
  | Some (Describe t) =>
      reading db t (fun tb =>
        Cursor describe_columns (map describe_row (tbl_schema tb)))
  | Some (Summarize t) =>
      reading db t (fun tb => Cursor summarize_columns (summarize_rows tb))
  | Some (DropIfExists t) =>
      (Return (Cursor [("Success", "BOOLEAN")] []), delete (key t) db)
  | Some (CreateFromCsv t) =>
      match db !! key t with
      | Some _ =>
          (Raise (DuckDBError ("Catalog Error: Table with name " +:+ t +:+ " already exists!")), db)
      | None =>
          match file with
          | None => (Raise (DuckDBError "IO Error: No files found that match the pattern"), db)
          | Some text =>
              match read_csv_auto text with
              | None => (Raise (DuckDBError "Invalid Input Error: CSV sniffing failed"), db)
              | Some tb =>
                  (Return (Cursor [("Count", "BIGINT")] [[VInt (len (tbl_rows tb))]]),
                   <[key t := tb]> db)
              end
          end
      end
  end.

End duckdb.

(* ===================================================================== *)
(** * analyzer/database.py: class DatabaseManager                         *)
(* ===================================================================== *)

(** [needle in hay] on strings. *)
Fixpoint contains (needle hay : string) : bool :=
  if String.prefix needle hay then true
  else
    match hay with
    | EmptyString => false
    | String _ hay' => contains needle hay'
    end.

(** [str.title()] on ASCII text: a cased character is upper case after an
    uncased one and lower case after a cased one. *)
Fixpoint title_from (previous_is_cased : bool) (s : string) : string :=
  match s with
  | EmptyString => EmptyString
  | String c s' =>
      if is_upper c || is_lower c then
        String (if previous_is_cased then to_lower c else to_upper c) (title_from true s')
      else String c (title_from false s')
  end.
Definition title (s : string) : string := title_from false s.

(** One entry of [column_details]. *)
Record column_detail := ColumnDetail {
  detail_name : value;
  detail_type : string;
  detail_raw_type : value;
  detail_description : string
}.

Module analyzer_database.

(** [DatabaseManager.__init__] *)
Definition __init__ : DatabaseManager :=
  {| conn := None; table_name := "csv_data" |}.

(** [DatabaseManager.connect] *)
Definition connect : M (gmap string table) :=
  fun w =>
    match conn (db_manager w) with
    | None => (Return duckdb.connect, set_conn (Some duckdb.connect) w)
    | Some c => (Return c, w)
    end.

(** [DatabaseManager.disconnect] *)
Definition disconnect : M unit :=
  fun w =>
    match conn (db_manager w) with
    | Some _ => (Return tt, set_conn None w)
    | None => (Return tt, w)
    end.

(** [DatabaseManager.execute_query] *)
Definition execute_query `{Engine} (query : string) : M cursor :=
  fun w =>
    match conn (db_manager w) with
    | None => (Raise (RuntimeError "数据库连接未建立，请先调用 connect()"), w)
    | Some db =>
        let '(r, db') := duckdb.execute (tmp_data_csv w) db query in
        (r, set_conn (Some db') w)
    end.

(** [self.table_name] *)
Definition self_table_name : M string :=
  fun w => (Return (table_name (db_manager w)), w).

(** The [if]/[elif] chain of [get_table_info] that turns an engine type
    into the type shown to the front end. *)
Definition frontend_type (col_type : string) : string :=
  if contains "VARCHAR" col_type || contains "TEXT" col_type then "string"
  else if contains "INTEGER" col_type || contains "BIGINT" col_type
          || contains "DOUBLE" col_type || contains "FLOAT" col_type then "number"
  else if contains "DATE" col_type || contains "TIMESTAMP" col_type then "date"
  else if contains "BOOLEAN" col_type then "boolean"
  else "string".

(** The body of the loop over [columns_info]. *)
Definition column_details_of `{PyRuntime} (col : list value) : outcome column_detail :=
  match subscript (Some col) 0 with
  | Raise e => Raise e
  | Return col_name =>
      match subscript (Some col) 1 with
      | Raise e => Raise e
      | Return col_type =>
          match col_type with
          | VStr raw =>
              let frontend_type := frontend_type raw in
              Return {| detail_name := col_name;
                        detail_type := frontend_type;
                        detail_raw_type := col_type;
                        detail_description :=
                          title frontend_type +:+ " 类型的 " +:+ py_str col_name +:+ " 字段" |}
          | _ => Raise (TypeError "argument of this type is not iterable")
          end
      end
  end.

(** [DatabaseManager.get_table_info] *)
Definition get_table_info `{PyRuntime} `{Engine}
    : M (value * list value * list column_detail) :=
  do t <- self_table_name ;;
  do c <- execute_query ("SELECT count(*) FROM " +:+ t) ;;
  do row_count <- lift (subscript (fetchone c) 0) ;;
  do t <- self_table_name ;;
  do c <- execute_query ("DESCRIBE " +:+ t) ;;
  let columns_info := fetchall c in
  do column_names <- lift (mapM (fun col => subscript (Some col) 0) columns_info) ;;
  do column_details <- lift (mapM column_details_of columns_info) ;;
  ret (row_count, column_names, column_details).

(** [DatabaseManager.table_exists] *)
Definition table_exists `{Engine} : M bool :=
  try_except
    (do t <- self_table_name ;;
     run execute_query ("SELECT 1 FROM " +:+ t +:+ " LIMIT 1") ;;
     ret true)
    (ret false).

End analyzer_database.

(* ===================================================================== *)
(** * analyzer/loader.py: class DataLoader                                *)
(* ===================================================================== *)

Module analyzer_loader.

(** [DataLoader.load_csv_from_content]; [table_name] defaults to
    ["csv_data"] in the source. *)
Definition load_csv_from_content `{Engine}
    (csv_content : string) (table_name : string) : M value :=
  run analyzer_database.connect ;;
  run (fun w => (Return tt, write_tmp_data_csv csv_content w)) ;;
  run try_except
        (run analyzer_database.execute_query ("DROP TABLE IF EXISTS " +:+ table_name) ;;
         ret tt)
        (ret tt) ;;
  let create_query :=
    "CREATE TABLE " +:+ table_name +:+ " AS SELECT * FROM read_csv_auto('/tmp/data.csv')" in
  run analyzer_database.execute_query create_query ;;
  do c <- analyzer_database.execute_query ("SELECT count(*) FROM " +:+ table_name) ;;
  do row_count <- lift (subscript (fetchone c) 0) ;;
  ret row_count.

End analyzer_loader.

(* ===================================================================== *)
(** * csv_analyzer/database.py: class DatabaseManager                     *)
(* ===================================================================== *)

Module csv_analyzer_database.

(** The class has the text of [analyzer/database.py] for [__init__],
    [connect], [disconnect], [execute_query] and [table_exists]. *)
Definition __init__ : DatabaseManager := analyzer_database.__init__.
Definition connect : M (gmap string table) := analyzer_database.connect.
Definition disconnect : M unit := analyzer_database.disconnect.
Definition execute_query `{Engine} (query : string) : M cursor :=
  analyzer_database.execute_query query.
Definition table_exists `{Engine} : M bool := analyzer_database.table_exists.

(** [DatabaseManager.get_table_info], here without the column details. *)
Definition get_table_info `{Engine} : M (value * list value) :=
  do t <- analyzer_database.self_table_name ;;
  do c <- execute_query ("SELECT count(*) FROM " +:+ t) ;;
  do row_count <- lift (subscript (fetchone c) 0) ;;
  do t <- analyzer_database.self_table_name ;;
  do c <- execute_query ("DESCRIBE " +:+ t) ;;
  let columns_info := fetchall c in
  do column_names <- lift (mapM (fun col => subscript (Some col) 0) columns_info) ;;
  ret (row_count, column_names).

End csv_analyzer_database.

(* ===================================================================== *)
(** * csv_analyzer/analyzer.py: class DataAnalyzer                        *)
(* ===================================================================== *)

Module csv_analyzer_utils.

(** Modelled from the spec: [csv_analyzer/utils.py], which
    [csv_analyzer/analyzer.py] imports [DataProcessor] from, is not among
    the sources.  The result-set normalizer applies the cell rules to every
    cell of every row, keeps the order of rows and columns, and attaches
    the two counts; [analyzer/utils.py] holds a class of that name which
    does so. *)
Definition process_query_result `{PyRuntime}
    (result_data : list (list value)) (columns : list string) : outcome payload :=
  analyzer_utils.process_query_result result_data columns.

End csv_analyzer_utils.

(** The dictionary an analysis returns: the processed result updated with
    the keys ["command"], ["table_name"] and ["source_table_rows"]. *)
Record analysis_result := AnalysisResult {
  processed_result : payload;
  command : string;
  result_table_name : string;
  source_table_rows : value
}.

(** The dictionary [custom_query] returns. *)
Record query_result := QueryResult {
  query_payload : payload;
  query : string
}.

Module csv_analyzer_analyzer.

(** [DataAnalyzer._run_analysis_command] *)
Definition _run_analysis_command `{PyRuntime} `{Engine}
    (command table_name : string) : M analysis_result :=
  do exists_ <- csv_analyzer_database.table_exists ;;
  if negb exists_ then raise (ValueError ("表 '" +:+ table_name +:+ "' 不存在"))
  else
    do info <- csv_analyzer_database.get_table_info ;;
    let row_count := fst info in
    let query := command +:+ " " +:+ table_name in
    do cursor <- csv_analyzer_database.execute_query query ;;
    let result_data := fetchall cursor in
    let columns := map fst (description cursor) in
    do processed_result <-
      lift (csv_analyzer_utils.process_query_result result_data columns) ;;
    ret {| processed_result := processed_result;
           command := command;
           result_table_name := table_name;
           source_table_rows := row_count |}.

(** [DataAnalyzer.describe]; [table_name] defaults to ["csv_data"]. *)
Definition describe `{PyRuntime} `{Engine} (table_name : string) : M analysis_result :=
  _run_analysis_command "DESCRIBE" table_name.

(** [DataAnalyzer.summarize]; [table_name] defaults to ["csv_data"]. *)
Definition summarize `{PyRuntime} `{Engine} (table_name : string) : M analysis_result :=
  _run_analysis_command "SUMMARIZE" table_name.

(** [DataAnalyzer.custom_query]: the processed result with the key
    ["query"] added. *)
Definition custom_query `{PyRuntime} `{Engine} (query : string) : M query_result :=
  do cursor <- csv_analyzer_database.execute_query query ;;
  let result_data := fetchall cursor in
  let columns := map fst (description cursor) in
  do processed_result <-
    lift (csv_analyzer_utils.process_query_result result_data columns) ;;
  ret {| query_payload := processed_result; query := query |}.

End csv_analyzer_analyzer.

(** The world right after the objects are constructed: no connection, no
    staged file. *)
Definition initial_world : world :=
  {| db_manager := analyzer_database.__init__; tmp_data_csv := None |}.

(* ===================================================================== *)
(** * A small engine instance to run the model on                         *)
(* ===================================================================== *)

Module simple_engine.

Definition LF : ascii := ascii_of_nat 10.
Definition comma : ascii := ascii_of_nat 44.

Fixpoint split_on (sep : ascii) (s : string) : list string :=
  match s with
  | EmptyString => [EmptyString]
  | String c s' =>
      if Ascii.eqb c sep then EmptyString :: split_on sep s'
      else
        match split_on sep s' with
        | [] => [String c EmptyString]
        | field :: fields => String c field :: fields
        end
  end.

Definition nonempty (s : string) : bool := negb (String.eqb s "").

(** A reader without type sniffing: the first line names the columns,
    every column is VARCHAR, every later line must have as many fields as
    the header. *)
Definition read_csv (text : string) : option table :=
  match filter (fun l => Is_true (nonempty l)) (split_on LF text) with
  | [] => None
  | header :: lines =>
      let names := split_on comma header in
      let rows := map (split_on comma) lines in
      if forallb (fun r => (length r =? length names)%nat) rows then
        Some {| tbl_schema := map duckdb.varchar names;
                tbl_rows := map (map VStr) rows |}
      else None
  end.

(** One SUMMARIZE row per column, the statistics left null. *)
Definition summarize_simple (tb : table) : list (list value) :=
  map (fun col =>
         [VStr (fst col); VStr (snd col); VNone; VNone; VNone; VNone; VNone;
          VNone; VNone; VNone; VInt (len (tbl_rows tb)); VNone])
      (tbl_schema tb).

Lemma summarize_simple_values (tb : table) :
  Forall (Forall (fun v => engine_value v = true)) (summarize_simple tb).
Proof.
  unfold summarize_simple.
  induction (tbl_schema tb) as [|col cols IH]; simpl; constructor;
    [repeat constructor | exact IH].
Qed.

Definition engine : Engine :=
  {| read_csv_auto := read_csv;
     summarize_rows := summarize_simple;
     summarize_rows_values := summarize_simple_values |}.

(** The text [id,name / 1,Alice / 2,Bob], one line each. *)
Definition people_csv : string :=
  "id,name" +:+ String LF "1,Alice" +:+ String LF "2,Bob" +:+ String LF "".

Definition people : table :=
  {| tbl_schema := [("id", "VARCHAR"); ("name", "VARCHAR")];
     tbl_rows := [[VStr "1"; VStr "Alice"]; [VStr "2"; VStr "Bob"]] |}.

End simple_engine.

(* ===================================================================== *)
(** * utils.py, load_csv.py, run_analysis.py: the scripts                 *)
(* ===================================================================== *)

(** The scripts run against a global [conn], an open engine connection;
    their state is that database and the staged file. *)
Record script_state := ScriptState {
  script_file : option string;
  script_conn : gmap string table
}.

(** [conn.execute(sql)] on the global connection. *)
Definition conn_execute `{Engine} (sql : string) (st : script_state)
    : outcome cursor * script_state :=
  let '(r, db) := duckdb.execute (script_file st) (script_conn st) sql in
  (r, {| script_file := script_file st; script_conn := db |}).

Module utils.

(** The body of the inner loop of [process_query_result]. *)
Definition process_cell `{PyRuntime} (cell : value) : value :=
  if is_None cell then VNone
  else if hasattr_str cell then VStr (py_str cell)
  else cell.

(** [process_query_result] of [utils.py] *)
Definition process_query_result `{PyRuntime}
    (result_data : list (list value)) (columns : list string) : payload :=
  let processed_data := map (map process_cell) result_data in
  {| data := processed_data;
     columns := columns;
     row_count := len processed_data;
     column_count := len columns |}.

(** [validate_table_exists]; [table_name] defaults to ["csv_data"]. *)
Definition validate_table_exists `{Engine} (table_name : string) (st : script_state)
    : outcome value * script_state :=
  match conn_execute ("SELECT count(*) FROM " +:+ table_name) st with
  | (Raise e, st') => (Raise e, st')
  | (Return c, st') =>
      let table_info := fetchone c in
      (subscript table_info 0, st')
  end.

End utils.

Module load_csv.


End load_csv.

Module run_analysis.

(** [run_analysis_command] *)
Definition run_analysis_command `{PyRuntime} `{Engine} (command_type : string)
    (st : script_state) : outcome payload * script_state :=
  let command := upper command_type in
  match utils.validate_table_exists "csv_data" st with
  | (Raise e, st) => (Raise e, st)
  | (Return _, st) =>
  match conn_execute (command +:+ " csv_data") st with
  | (Raise e, st) => (Raise e, st)
  | (Return cursor, st) =>
      let result_data := fetchall cursor in
      let columns := map fst (description cursor) in
      (Return (utils.process_query_result result_data columns), st)
  end end.

End run_analysis.

(* ===================================================================== *)
(** * csv_analyzer/__init__.py: the package and its convenience functions *)
(* ===================================================================== *)

Module csv_analyzer_loader.

(** Modelled from the spec: [csv_analyzer/loader.py], which
    [csv_analyzer/__init__.py] imports [DataLoader] from, is not among the
    sources.  The ingestor ensures a connection, stages the text, drops
    any table of the target name, creates the table from the staged text
    and returns its row count; [analyzer/loader.py] holds a class of that
    name which does so. *)
Definition load_csv_from_content `{Engine}
    (csv_content : string) (table_name : string) : M value :=
  analyzer_loader.load_csv_from_content csv_content table_name.

End csv_analyzer_loader.

(** The module globals [db_manager], [data_analyzer], [data_loader] and
    [data_processor]: all four are [None] until [initialize] binds them in
    one go, the analyzer and the loader holding the manager that
    [db_manager] names; and the staged file. *)
Record package := Package {
  instances : option DatabaseManager;
  package_file : option string
}.

Module csv_analyzer.

(** Run a method of the bound instances on the package state. *)
Definition on_instances {A} (m : M A) (manager : DatabaseManager) (p : package)
    : outcome A * package :=
  let '(r, w) := m {| db_manager := manager; tmp_data_csv := package_file p |} in
  (r, {| instances := Some (db_manager w); package_file := tmp_data_csv w |}).

(** [initialize]: new instances around a new manager, then [connect()]. *)
Definition initialize (p : package) : outcome unit * package :=
  let '(r, p') := on_instances csv_analyzer_database.connect
                    csv_analyzer_database.__init__ p in
  match r with
  | Return _ => (Return tt, p')
  | Raise e => (Raise e, p')
  end.

(** [load_csv] *)
Definition load_csv `{Engine} (csv_content : string) (p : package)
    : outcome value * package :=
  match instances p with
  | None => (Raise (RuntimeError "包未初始化，请先调用 initialize()"), p)
  | Some manager =>
      on_instances (csv_analyzer_loader.load_csv_from_content csv_content "csv_data")
        manager p
  end.

(** [describe_data] *)
Definition describe_data `{PyRuntime} `{Engine} (p : package)
    : outcome analysis_result * package :=
  match instances p with
  | None => (Raise (RuntimeError "包未初始化，请先调用 initialize()"), p)
  | Some manager => on_instances (csv_analyzer_analyzer.describe "csv_data") manager p
  end.

(** [summarize_data] *)
Definition summarize_data `{PyRuntime} `{Engine} (p : package)
    : outcome analysis_result * package :=
  match instances p with
  | None => (Raise (RuntimeError "包未初始化，请先调用 initialize()"), p)
  | Some manager => on_instances (csv_analyzer_analyzer.summarize "csv_data") manager p
  end.

End csv_analyzer.

(* ===================================================================== *)
(** * Notions the statements below are written with                       *)
(* ===================================================================== *)

(** The existence probe [table_exists] sends for the configured table. *)
Definition probe (w : world) : string :=
  "SELECT 1 FROM " +:+ table_name (db_manager w) +:+ " LIMIT 1".

(** The four kinds shown to the front end, and the engine type names the
    chain of [get_table_info] looks for. *)
Definition frontend_kinds : list string := ["string"; "number"; "date"; "boolean"].
Definition recognised_type_names : list string :=
  ["VARCHAR"; "TEXT"; "INTEGER"; "BIGINT"; "DOUBLE"; "FLOAT"; "DATE"; "TIMESTAMP"; "BOOLEAN"].

(** The database a load leaves behind, from the database it found. *)
Definition loaded_database `{Engine} (csv_content t : string) (db : gmap string table)
    : gmap string table :=
  if duckdb.is_identifier t then
    match read_csv_auto csv_content with
    | Some tb => <[duckdb.key t := tb]> (delete (duckdb.key t) db)
    | None => delete (duckdb.key t) db
    end
  else db.

(** The world a load leaves behind. *)
Definition loaded_world `{Engine} (csv_content t : string) (w : world) : world :=
  set_conn
    (Some (loaded_database csv_content t (default duckdb.connect (conn (db_manager w)))))
    (write_tmp_data_csv csv_content w).

(** What a load returns: the row count the engine reports for the new
    table, or the engine's refusal. *)
Definition loaded_result `{Engine} (csv_content t : string) : outcome value :=
  if duckdb.is_identifier t then
    match read_csv_auto csv_content with
    | Some tb => Return (VInt (len (tbl_rows tb)))
    | None => Raise (DuckDBError "Invalid Input Error: CSV sniffing failed")
    end
  else Raise (DuckDBError "Parser Error: syntax error").

(** Whether the configured table can be probed: a connection exists, the
    engine accepts the configured name and the database has that table. *)
Definition configured_table (w : world) : option table :=
  match conn (db_manager w) with
  | Some db =>
      if duckdb.is_identifier (table_name (db_manager w))
      then db !! duckdb.key (table_name (db_manager w)) else None
  | None => None
  end.

(** The detail [get_table_info] builds for a column of the schema. *)
Definition detail_of_column (col : string * string) : column_detail :=
  {| detail_name := VStr (fst col);
     detail_type := analyzer_database.frontend_type (snd col);
     detail_raw_type := VStr (snd col);
     detail_description :=
       title (analyzer_database.frontend_type (snd col))
         +:+ " 类型的 " +:+ fst col +:+ " 字段" |}.

(** What [get_table_info] answers for a table. *)
Definition info_of_table (tb : table) : value * list value * list column_detail :=
  (VInt (len (tbl_rows tb)),
   map (fun col => VStr (fst col)) (tbl_schema tb),
   map detail_of_column (tbl_schema tb)).

(** What the engine answers when asked to read table [t] over the
    manager's connection: the table, or the error raised. *)
Definition table_named (t : string) (w : world) : outcome table :=
  match conn (db_manager w) with
  | None => Raise (RuntimeError "数据库连接未建立，请先调用 connect()")
  | Some db =>
      if duckdb.is_identifier t then
        match db !! duckdb.key t with
        | Some tb => Return tb
        | None => Raise (duckdb.catalog_error t)
        end
      else Raise (DuckDBError "Parser Error: syntax error")
  end.

(** What an analysis of table [t] answers, or raises, once the engine
    has handed out [rows] under the result columns [cols], the configured
    table being [configured]. *)
Definition analysis_of `{PyRuntime} (command t : string)
    (cols : list (string * string)) (rows : list (list value))
    (configured : table) : outcome analysis_result :=
  match csv_analyzer_utils.process_query_result rows (map fst cols) with
  | Raise e => Raise e
  | Return processed =>
      Return {| processed_result := processed;
                command := command;
                result_table_name := t;
                source_table_rows := VInt (len (tbl_rows configured)) |}
  end.

(** The payload of DESCRIBE for a table: one row per column, unchanged by
    the conversion, under the six result columns. *)
Definition describe_payload (tb : table) : payload :=
  {| data := map duckdb.describe_row (tbl_schema tb);
     columns := map fst duckdb.describe_columns;
     row_count := len (tbl_schema tb);
     column_count := 6 |}.

(** The package before [initialize]. *)
Definition fresh_package : package := {| instances := None; package_file := None |}.

(** The world after [load_csv_from_content] of the three-line text into
    the table [t], from a new manager. *)
Definition world_after_load (t : string) : world :=
  snd (@analyzer_loader.load_csv_from_content simple_engine.engine
         simple_engine.people_csv t initial_world).

(* ===================================================================== *)
(** * Sanity checks of the model                                          *)
(* ===================================================================== *)

Example float_of_decimal_3_14 :
  float_of_decimal (Decimal false 314 (-2))
  = Return (S754_finite false 7070651414971679 (-51)).
Proof. vm_compute. reflexivity. Qed.

Example float_of_decimal_0_1 :
  float_of_decimal (Decimal true 1 (-1))
  = Return (S754_finite true 7205759403792794 (-56)).
Proof. vm_compute. reflexivity. Qed.

Example float_of_decimal_big :
  float_of_decimal (Decimal false 1 400) = Return (S754_infinity false).
Proof. vm_compute. reflexivity. Qed.

Example float_of_decimal_signalling :
  float_of_decimal (DecimalSNaN false 0)
  = Raise (ValueError "cannot convert signaling NaN to float").
Proof. reflexivity. Qed.

Example reserved_table_names :
  map duckdb.is_identifier ["csv_data"; "CSV_DATA"; "other"; "select"; "Table"; "1abc"; "a b"; ""]
  = [true; true; true; false; false; false; false; false].
Proof. vm_compute. reflexivity. Qed.

Example int_str_examples : int_str 0 = "0" /\ int_str (-42) = "-42".
Proof. vm_compute. auto. Qed.

Example read_people : simple_engine.read_csv simple_engine.people_csv = Some simple_engine.people.
Proof. vm_compute. reflexivity. Qed.

Example load_people :
  fst (@analyzer_loader.load_csv_from_content simple_engine.engine
         simple_engine.people_csv "csv_data" initial_world) = Return (VInt 2).
Proof. vm_compute. reflexivity. Qed.

(* ===================================================================== *)
(** * The value normalizer                                                *)
(* ===================================================================== *)

Section MapM.
Context {A B : Type} (f : A -> outcome B).

Lemma mapM_Forall2 (l : list A) (l' : list B) :
  mapM f l = Return l' -> Forall2 (fun a b => f a = Return b) l l'.
Proof.
  revert l'. induction l as [|a l IH]; simpl; intros l'.
  - intros [= <-]. constructor.
  - destruct (f a) as [b|e] eqn:Ha; [|discriminate].
    destruct (mapM f l) as [bs|e]; [|discriminate].
    intros [= <-]. constructor; auto.
Qed.

Lemma mapM_length (l : list A) (l' : list B) :
  mapM f l = Return l' -> length l' = length l.
Proof. intros Hm. symmetry. exact (Forall2_length _ _ _ (mapM_Forall2 _ _ Hm)). Qed.

Lemma mapM_returns (l : list A) :
  Forall (fun a => exists b, f a = Return b) l -> exists l', mapM f l = Return l'.
Proof.
  induction 1 as [|a l [b Hb] _ [l' IH]]; simpl; [eauto|].
  rewrite Hb, IH. eauto.
Qed.


Lemma mapM_fixes (g : A -> B) (l : list A) :
  Forall (fun a => f a = Return (g a)) l -> mapM f l = Return (map g l).
Proof.
  induction 1 as [|a l Ha _ IH]; simpl; [reflexivity|]. now rewrite Ha, IH.
Qed.

End MapM.

Section Normalizer.
Context `{PyRuntime}.


Lemma isinstance_number v :
  isinstance v [int_cls; float_cls] = true <->
  (exists b, v = VBool b) \/ (exists z, v = VInt z) \/ (exists f, v = VFloat f).
Proof.
  split.
  - destruct v; try discriminate; eauto.
  - intros [[b ->] | [[z ->] | [f ->]]]; reflexivity.
Qed.

Lemma convert_returns v :
  is_signalling_nan v = false ->
  exists r, analyzer_utils._convert_cell_value v = Return r /\ normalized r = true.
Proof. destruct v as [| | | |[]| |]; try discriminate; intros _; eexists; split; reflexivity. Qed.


Lemma convert_normalized v r :
  analyzer_utils._convert_cell_value v = Return r -> normalized r = true.
Proof. destruct v as [| | | |[]| |]; intros [= <-]; reflexivity. Qed.

Lemma convert_fixes_normalized v :
  normalized v = true -> analyzer_utils._convert_cell_value v = Return v.
Proof. destruct v; try discriminate; reflexivity. Qed.


End Normalizer.



(** C4, as the code has it: a boolean cell is returned unchanged; [bool] is
    a subclass of [int], so the pass-through rule matches before the
    textual one is reached. *)
Theorem C4_bool_passes_through `{PyRuntime} (b : bool) :
  isinstance (VBool b) [int_cls; float_cls] = true /\
  analyzer_utils._convert_cell_value (VBool b) = Return (VBool b).
Proof. split; reflexivity. Qed.

(** C4 as stated fails: [True] is not mapped to its text. *)
Lemma C4_bool_not_stringified :
  ~ (forall (R : PyRuntime) (b : bool),
       analyzer_utils._convert_cell_value (VBool b) = Return (VStr (py_str (VBool b)))).
Proof.
  intros Hall.
  specialize (Hall {| float_repr := fun _ => ""; decimal_str := fun _ => "" |} true).
  discriminate Hall.
Qed.

(** C9. Converting twice is converting once: converting what a conversion
    returned returns it again, and a conversion that raises raises the
    same either way; every value of the normalized domain (None, an int,
    a float, a text) is a fixed point. *)
Theorem C9_convert_idempotent `{PyRuntime} :
  (forall v, match analyzer_utils._convert_cell_value v with
             | Return r => analyzer_utils._convert_cell_value r
             | Raise e => Raise e
             end = analyzer_utils._convert_cell_value v) /\
  (forall v r, analyzer_utils._convert_cell_value v = Return r ->
               analyzer_utils._convert_cell_value r = Return r) /\
  analyzer_utils._convert_cell_value VNone = Return VNone /\
  (forall z, analyzer_utils._convert_cell_value (VInt z) = Return (VInt z)) /\
  (forall f, analyzer_utils._convert_cell_value (VFloat f) = Return (VFloat f)) /\
  (forall s, analyzer_utils._convert_cell_value (VStr s) = Return (VStr s)).
Proof.
  assert (Hfix : forall v r, analyzer_utils._convert_cell_value v = Return r ->
                             analyzer_utils._convert_cell_value r = Return r).
  { intros v r Hr. apply convert_fixes_normalized. exact (convert_normalized v r Hr). }
  split; [|split; [exact Hfix | repeat split]].
  intros v. destruct (analyzer_utils._convert_cell_value v) as [r|e] eqn:Hv;
    [exact (Hfix v r Hv) | reflexivity].
Qed.

(* ===================================================================== *)
(** * Result payloads                                                     *)
(* ===================================================================== *)

Lemma len_map {A B} (f : A -> B) (l : list A) : len (map f l) = len l.
Proof. unfold len. now rewrite length_map. Qed.

Section Payloads.
Context `{PyRuntime}.

Lemma process_returns rows cols p :
  analyzer_utils.process_query_result rows cols = Return p ->
  exists processed,
    mapM (mapM analyzer_utils._convert_cell_value) rows = Return processed /\
    p = {| data := processed; columns := cols;
           row_count := len processed; column_count := len cols |}.
Proof.
  unfold analyzer_utils.process_query_result.
  destruct (mapM _ rows) as [processed|e]; [|discriminate].
  intros [= <-]. eauto.
Qed.

Lemma converted_rows_lengths rows processed :
  mapM (mapM analyzer_utils._convert_cell_value) rows = Return processed ->
  map len processed = map len rows.
Proof.
  intros Hm. apply mapM_Forall2 in Hm.
  induction Hm as [|row row' rows rows' Hrow _ IH]; simpl; [reflexivity|].
  unfold len at 1 3. now rewrite (mapM_length _ _ _ Hrow), IH.
Qed.


Lemma converted_rows_return rows :
  Forall (Forall (fun v => is_signalling_nan v = false)) rows ->
  exists processed, mapM (mapM analyzer_utils._convert_cell_value) rows = Return processed.
Proof.
  intros Hrows. apply mapM_returns.
  eapply Forall_impl; [exact Hrows|]. intros row Hrow. apply mapM_returns.
  eapply Forall_impl; [exact Hrow|]. intros v Hv.
  destruct (convert_returns v Hv) as [r [Hr _]]. eauto.
Qed.

End Payloads.



(** C10. [validate_data_format] answers [True] exactly for a non-empty
    list of rows under a non-empty list of column names where every row
    has as many cells as there are names; no rows, or no names, is always
    [False]. *)
Theorem C10_validate_data_format (data : list (list value)) (cols : list string) :
  (analyzer_utils.validate_data_format data cols = true <->
     data <> [] /\ cols <> [] /\ Forall (fun row => length row = length cols) data) /\
  analyzer_utils.validate_data_format [] cols = false /\
  analyzer_utils.validate_data_format data [] = false.
Proof.
  assert (Hloop : forall n rows,
             analyzer_utils.rows_have_width (Z.of_nat n) rows = true
             <-> Forall (fun row : list value => length row = n) rows).
  { intros n rows. induction rows as [|row rows IH]; simpl.
    - split; [constructor | reflexivity].
    - rewrite Forall_cons, <- IH. unfold len.
      destruct (Z.eqb_spec (Z.of_nat (length row)) (Z.of_nat n)) as [E|E]; simpl.
      + apply Nat2Z.inj in E. tauto.
      + split; [discriminate | intros [E' _]; congruence]. }
  split; [|split].
  - unfold analyzer_utils.validate_data_format.
    destruct data as [|row rows]; simpl.
    { split; [discriminate | intros [E _]; congruence]. }
    destruct cols as [|c cols]; simpl.
    { split; [discriminate | intros (_ & E & _); congruence]. }
    change (len (c :: cols)) with (Z.of_nat (length (c :: cols))).
    change (if negb (len row =? Z.of_nat (length (c :: cols)))%Z then false
            else analyzer_utils.rows_have_width (Z.of_nat (length (c :: cols))) rows)
      with (analyzer_utils.rows_have_width (Z.of_nat (length (c :: cols))) (row :: rows)).
    rewrite Hloop. split; [intros Hf; repeat split; [discriminate..|exact Hf] | tauto].
  - reflexivity.
  - unfold analyzer_utils.validate_data_format. destruct data; reflexivity.
Qed.

(* ===================================================================== *)
(** * The statements the sources build, as the engine reads them          *)
(* ===================================================================== *)

Section Statements.
Import duckdb.

Lemma string_length_app (s q : string) :
  String.length (s +:+ q) = String.length s + String.length q.
Proof. induction s as [|c s IH]; simpl; [reflexivity | now rewrite IH]. Qed.

Lemma string_eqb_longer (c : ascii) (t q : string) :
  String.eqb (String c (t +:+ q)) q = false.
Proof.
  destruct (String.eqb_spec (String c (t +:+ q)) q) as [E|]; [|reflexivity].
  apply (f_equal String.length) in E. simpl in E.
  rewrite string_length_app in E. lia.
Qed.

Lemma strip_suffix_app (q t : string) : strip_suffix q (t +:+ q) = Some t.
Proof.
  induction t as [|c t IH].
  - simpl. destruct q; simpl; now rewrite ?Ascii.eqb_refl, ?String.eqb_refl.
  - change (String c t +:+ q) with (String c (t +:+ q)).
    change (strip_suffix q (String c (t +:+ q)))
      with (if String.eqb (String c (t +:+ q)) q then Some EmptyString
            else option_map (String c) (strip_suffix q (t +:+ q))).
    rewrite string_eqb_longer, IH. reflexivity.
Qed.

Lemma parse_select_one t :
  parse ("SELECT 1 FROM " +:+ t +:+ " LIMIT 1") = on_table SelectOne t.
Proof.
  remember (t +:+ " LIMIT 1") as rest eqn:E.
  unfold parse. cbv -[strip_suffix on_table]. subst rest.
  now rewrite strip_suffix_app.
Qed.

Lemma parse_select_count t :
  parse ("SELECT count(*) FROM " +:+ t) = on_table SelectCount t.
Proof. reflexivity. Qed.

Lemma parse_describe t : parse ("DESCRIBE " +:+ t) = on_table Describe t.
Proof. reflexivity. Qed.

Lemma parse_summarize t : parse ("SUMMARIZE " +:+ t) = on_table Summarize t.
Proof. reflexivity. Qed.

Lemma parse_drop t : parse ("DROP TABLE IF EXISTS " +:+ t) = on_table DropIfExists t.
Proof. reflexivity. Qed.

Lemma parse_create t :
  parse ("CREATE TABLE " +:+ t +:+ " AS SELECT * FROM read_csv_auto('/tmp/data.csv')")
  = on_table CreateFromCsv t.
Proof.
  remember (t +:+ " AS SELECT * FROM read_csv_auto('/tmp/data.csv')") as rest eqn:E.
  unfold parse. cbv -[strip_suffix on_table]. subst rest.
  now rewrite strip_suffix_app.
Qed.

End Statements.

(* ===================================================================== *)
(** * The connection manager                                              *)
(* ===================================================================== *)

Lemma initial_world_not_connected : conn (db_manager initial_world) = None.
Proof. reflexivity. Qed.

Lemma disconnect_not_connected (w : world) :
  conn (db_manager (snd (analyzer_database.disconnect w))) = None.
Proof.
  unfold analyzer_database.disconnect.
  destruct (conn (db_manager w)) eqn:E; simpl; [reflexivity | exact E].
Qed.

Lemma connect_connected (w : world) :
  conn (db_manager (snd (analyzer_database.connect w)))
  = Some (default duckdb.connect (conn (db_manager w))).
Proof.
  unfold analyzer_database.connect.
  destruct (conn (db_manager w)) eqn:E; simpl; [exact E | reflexivity].
Qed.

(** C7. Without a connection [execute_query] raises the RuntimeError that
    asks for [connect()], whatever the text of the query, and leaves the
    world as it was: nothing is handed to the engine. *)
Theorem C7_execute_query_needs_connection `{Engine} (sql : string) (w : world) :
  conn (db_manager w) = None ->
  analyzer_database.execute_query sql w
  = (Raise (RuntimeError "数据库连接未建立，请先调用 connect()"), w).
Proof.
  intros Hconn. unfold analyzer_database.execute_query. now rewrite Hconn.
Qed.

(** C7 at a concrete input: the probe text on the world of a new manager. *)
Lemma C7_witness_before_connect :
  @analyzer_database.execute_query simple_engine.engine "SELECT 1 FROM csv_data LIMIT 1"
    initial_world
  = (Raise (RuntimeError "数据库连接未建立，请先调用 connect()"), initial_world).
Proof.
  apply (@C7_execute_query_needs_connection simple_engine.engine).
  reflexivity.
Defined.

(** After [disconnect()] a query is refused in the same way. *)
Lemma execute_query_after_disconnect `{Engine} (sql : string) (w : world) :
  fst (analyzer_database.execute_query sql (snd (analyzer_database.disconnect w)))
  = Raise (RuntimeError "数据库连接未建立，请先调用 connect()").
Proof.
  unfold analyzer_database.execute_query.
  now rewrite disconnect_not_connected.
Qed.

Lemma table_exists_unfold `{Engine} (w : world) :
  analyzer_database.table_exists w
  = match analyzer_database.execute_query (probe w) w with
    | (Return _, w') => (Return true, w')
    | (Raise _, w') => (Return false, w')
    end.
Proof.
  unfold analyzer_database.table_exists, try_except, bind,
    analyzer_database.self_table_name, ret, probe.
  destruct (analyzer_database.execute_query _ w) as [[c|e] w']; reflexivity.
Qed.

Lemma execute_probe `{Engine} (file : option string) (db : gmap string table) (t : string) :
  db !! duckdb.key t = None ->
  exists e, duckdb.execute file db ("SELECT 1 FROM " +:+ t +:+ " LIMIT 1") = (Raise e, db).
Proof.
  intros Hnone. unfold duckdb.execute. rewrite parse_select_one.
  unfold duckdb.on_table. destruct (duckdb.is_identifier t); [|eauto].
  unfold duckdb.reading. rewrite Hnone. eauto.
Qed.

(** C6. [table_exists] answers [True] exactly when the probe query
    succeeds and [False] exactly when it raises; it never raises itself.
    It answers [False] when there is no connection, and when the connected
    database has no table of the configured name (names compared without
    regard to case), as right after [connect()] on a new manager. *)
Theorem C6_table_exists_collapses_failures `{Engine} (w : world) :
  (fst (analyzer_database.table_exists w) = Return true <->
     exists c, fst (analyzer_database.execute_query (probe w) w) = Return c) /\
  (fst (analyzer_database.table_exists w) = Return false <->
     exists e, fst (analyzer_database.execute_query (probe w) w) = Raise e) /\
  (exists b, fst (analyzer_database.table_exists w) = Return b) /\
  (conn (db_manager w) = None ->
     analyzer_database.table_exists w = (Return false, w)) /\
  (forall db, conn (db_manager w) = Some db ->
     db !! duckdb.key (table_name (db_manager w)) = None ->
     fst (analyzer_database.table_exists w) = Return false) /\
  fst (analyzer_database.table_exists initial_world) = Return false /\
  fst (analyzer_database.table_exists (snd (analyzer_database.connect initial_world)))
    = Return false.
Proof.
  rewrite table_exists_unfold.
  split; [split|split; [split|split; [|split; [|split; [|split]]]]].
  - destruct (analyzer_database.execute_query _ w) as [[c|e] w']; simpl;
      [eauto | discriminate].
  - intros [c Hc].
    destruct (analyzer_database.execute_query _ w) as [[c'|e] w']; simpl in *;
      [reflexivity | discriminate].
  - destruct (analyzer_database.execute_query _ w) as [[c|e] w']; simpl;
      [discriminate | eauto].
  - intros [e He].
    destruct (analyzer_database.execute_query _ w) as [[c|e'] w']; simpl in *;
      [discriminate | reflexivity].
  - destruct (analyzer_database.execute_query _ w) as [[c|e] w']; simpl; eauto.
  - intros Hconn. unfold analyzer_database.execute_query. now rewrite Hconn.
  - intros db Hconn Hnone. unfold analyzer_database.execute_query, probe.
    rewrite Hconn.
    destruct (execute_probe (tmp_data_csv w) db _ Hnone) as [e ->]. reflexivity.
  - reflexivity.
  - rewrite table_exists_unfold.
    unfold analyzer_database.execute_query, probe. simpl.
    destruct (execute_probe None duckdb.connect "csv_data" (lookup_empty _)) as [e He].
    simpl in He. rewrite He. reflexivity.
Qed.

(* ===================================================================== *)
(** * Column kinds                                                        *)
(* ===================================================================== *)

Example frontend_type_examples :
  map analyzer_database.frontend_type
      ["VARCHAR"; "BIGINT"; "DOUBLE"; "DATE"; "TIMESTAMP"; "BOOLEAN"; "DECIMAL(18,3)"; "BLOB"; ""]
  = ["string"; "number"; "number"; "date"; "date"; "boolean"; "string"; "string"; "string"].
Proof. vm_compute. reflexivity. Qed.

(** C8. Every engine type text has one front-end kind, one of string,
    number, date and boolean; a text that holds none of the recognised
    type names has kind string; and [get_table_info] builds the detail of
    a column whose type is a text without raising, with that kind. *)
Theorem C8_frontend_type_total `{PyRuntime} :
  (forall col_type, In (analyzer_database.frontend_type col_type) frontend_kinds) /\
  (forall col_type,
     forallb (fun name => negb (contains name col_type)) recognised_type_names = true ->
     analyzer_database.frontend_type col_type = "string") /\
  (forall col_name col_type rest,
     exists detail,
       analyzer_database.column_details_of (col_name :: VStr col_type :: rest) = Return detail /\
       detail_type detail = analyzer_database.frontend_type col_type /\
       detail_raw_type detail = VStr col_type /\
       detail_name detail = col_name).
Proof.
  split; [|split].
  - intros col_type. unfold analyzer_database.frontend_type, frontend_kinds.
    repeat match goal with
           | |- context [if ?b then _ else _] => destruct b
           end; simpl; tauto.
  - intros col_type Hnone. unfold analyzer_database.frontend_type.
    simpl in Hnone.
    repeat match type of Hnone with
           | (_ && _) = true => apply andb_prop in Hnone as [? Hnone]
           end.
    repeat match goal with
           | Hn : negb ?b = true |- _ => apply negb_true_iff in Hn; rewrite Hn
           end.
    reflexivity.
  - intros col_name col_type rest. eexists. split; [reflexivity|].
    repeat split.
Qed.

(* ===================================================================== *)
(** * Ingestion                                                           *)
(* ===================================================================== *)

(** Runs [load_csv_from_content] symbolically: the three statements are
    parsed, then the cases are whether a connection exists, whether the
    engine accepts the table name and whether it can read the text. *)
Ltac run_load csv_content t w :=
  unfold analyzer_loader.load_csv_from_content,
    bind, try_except, ret, lift, analyzer_database.connect,
    analyzer_database.execute_query, duckdb.execute;
  rewrite parse_drop, parse_create, parse_select_count; unfold duckdb.on_table;
  destruct w as [[c tn] file]; simpl;
  destruct c as [db|]; simpl; destruct (duckdb.is_identifier t) eqn:Hid; simpl;
  unfold duckdb.reading; simpl;
  rewrite ?lookup_delete_eq; simpl;
  try destruct (read_csv_auto csv_content) as [tb|]; simpl;
  rewrite ?lookup_insert_eq; simpl;
  reflexivity.

Section Ingestion.
Context `{Engine}.

Lemma load_world (csv_content t : string) (w : world) :
  snd (analyzer_loader.load_csv_from_content csv_content t w)
  = loaded_world csv_content t w.
Proof.
  unfold loaded_world, loaded_database. run_load csv_content t w.
Qed.

Lemma load_result (csv_content t : string) (w : world) :
  fst (analyzer_loader.load_csv_from_content csv_content t w)
  = loaded_result csv_content t.
Proof.
  unfold loaded_result. run_load csv_content t w.
Qed.



Lemma loaded_database_lookup (c t : string) (db : gmap string table) :
  duckdb.is_identifier t = true ->
  loaded_database c t db !! duckdb.key t = read_csv_auto c.
Proof.
  intros Hid. unfold loaded_database. rewrite Hid.
  destruct (read_csv_auto c); [apply lookup_insert_eq | apply lookup_delete_eq].
Qed.


End Ingestion.


(* ===================================================================== *)
(** * The analysis orchestrator                                           *)
(* ===================================================================== *)

(** When the probe of the configured table fails, an analysis of any table
    name raises the ValueError that names it, before any other statement
    is sent. *)
Lemma run_analysis_without_configured_table `{PyRuntime} `{Engine}
    (command t : string) (w w' : world) :
  csv_analyzer_database.table_exists w = (Return false, w') ->
  csv_analyzer_analyzer._run_analysis_command command t w
  = (Raise (ValueError ("表 '" +:+ t +:+ "' 不存在")), w').
Proof.
  intros Hprobe. unfold csv_analyzer_analyzer._run_analysis_command, bind.
  rewrite Hprobe. reflexivity.
Qed.

(** The scenario of the specification: [describe("missing_table")] before
    any load. *)
Example describe_before_any_load `{PyRuntime} `{Engine} :
  csv_analyzer_analyzer.describe "missing_table" initial_world
  = (Raise (ValueError "表 'missing_table' 不存在"), initial_world).
Proof. reflexivity. Qed.

(** After the load into [csv_data], [describe()] of that table answers
    with one row per column and the metadata of the command. *)
Example describe_after_load `{PyRuntime} :
  fst (@csv_analyzer_analyzer.describe _ simple_engine.engine "csv_data"
         (world_after_load "csv_data"))
  = Return
      {| processed_result :=
           {| data := [[VStr "id"; VStr "VARCHAR"; VStr "YES"; VNone; VNone; VNone];
                       [VStr "name"; VStr "VARCHAR"; VStr "YES"; VNone; VNone; VNone]];
              columns := ["column_name"; "column_type"; "null"; "key"; "default"; "extra"];
              row_count := 2;
              column_count := 6 |};
         command := "DESCRIBE";
         result_table_name := "csv_data";
         source_table_rows := VInt 2 |}.
Proof. vm_compute. reflexivity. Qed.

(** C1, where the code departs from it.  The existence check probes the
    configured table [csv_data], not the table asked for.  After a load
    into [csv_data], [describe("missing_table")] passes the check, sends
    DESCRIBE missing_table to the engine and fails with the engine's
    error; after a load into [other] only, [describe("other")] raises the
    ValueError saying that [other] does not exist. *)
Theorem C1_describe_probes_configured_table `{PyRuntime} :
  fst (@csv_analyzer_database.table_exists simple_engine.engine
         (world_after_load "csv_data")) = Return true /\
  @csv_analyzer_analyzer.describe _ simple_engine.engine "missing_table"
      (world_after_load "csv_data")
    = (Raise (duckdb.catalog_error "missing_table"), world_after_load "csv_data") /\
  (exists tb, conn (db_manager (world_after_load "other")) = Some {[ "other" := tb ]}) /\
  @csv_analyzer_analyzer.describe _ simple_engine.engine "other"
      (world_after_load "other")
    = (Raise (ValueError "表 'other' 不存在"), world_after_load "other").
Proof.
  split; [vm_compute; reflexivity|].
  split; [vm_compute; reflexivity|].
  split; [eexists; vm_compute; reflexivity|].
  vm_compute; reflexivity.
Qed.

(* ===================================================================== *)
(** * More on the connection manager                                      *)
(* ===================================================================== *)

Lemma set_conn_same (w : world) (db : gmap string table) :
  conn (db_manager w) = Some db -> set_conn (Some db) w = w.
Proof. destruct w as [[c tn] file]. simpl. now intros ->. Qed.

Section EngineReads.
Context `{Engine}.

Lemma execute_select_one file db t :
  duckdb.execute file db ("SELECT 1 FROM " +:+ t +:+ " LIMIT 1")
  = if duckdb.is_identifier t then
      duckdb.reading db t (fun tb =>
        Cursor [("1", "INTEGER")] (map (fun _ => [VInt 1]) (take 1 (tbl_rows tb))))
    else (Raise (DuckDBError "Parser Error: syntax error"), db).
Proof.
  unfold duckdb.execute. rewrite parse_select_one. unfold duckdb.on_table.
  now destruct (duckdb.is_identifier t).
Qed.

Lemma execute_select_count file db t :
  duckdb.execute file db ("SELECT count(*) FROM " +:+ t)
  = if duckdb.is_identifier t then
      duckdb.reading db t (fun tb =>
        Cursor [("count_star()", "BIGINT")] [[VInt (len (tbl_rows tb))]])
    else (Raise (DuckDBError "Parser Error: syntax error"), db).
Proof.
  unfold duckdb.execute. rewrite parse_select_count. unfold duckdb.on_table.
  now destruct (duckdb.is_identifier t).
Qed.

Lemma execute_describe file db t :
  duckdb.execute file db ("DESCRIBE " +:+ t)
  = if duckdb.is_identifier t then
      duckdb.reading db t (fun tb =>
        Cursor duckdb.describe_columns (map duckdb.describe_row (tbl_schema tb)))
    else (Raise (DuckDBError "Parser Error: syntax error"), db).
Proof.
  unfold duckdb.execute. rewrite parse_describe. unfold duckdb.on_table.
  now destruct (duckdb.is_identifier t).
Qed.

Lemma execute_summarize file db t :
  duckdb.execute file db ("SUMMARIZE " +:+ t)
  = if duckdb.is_identifier t then
      duckdb.reading db t (fun tb =>
        Cursor duckdb.summarize_columns (summarize_rows tb))
    else (Raise (DuckDBError "Parser Error: syntax error"), db).
Proof.
  unfold duckdb.execute. rewrite parse_summarize. unfold duckdb.on_table.
  now destruct (duckdb.is_identifier t).
Qed.

Lemma reading_database {A} db t (k : table -> A) : snd (duckdb.reading db t k) = db.
Proof. unfold duckdb.reading. now destruct (db !! duckdb.key t). Qed.

Lemma table_exists_spec (w : world) :
  analyzer_database.table_exists w
  = (Return (bool_decide (is_Some (configured_table w))), w).
Proof.
  rewrite table_exists_unfold.
  unfold analyzer_database.execute_query, probe, configured_table.
  destruct (conn (db_manager w)) as [db|] eqn:Hc; [|reflexivity].
  rewrite execute_select_one.
  destruct (duckdb.is_identifier _); simpl; [|now rewrite set_conn_same].
  unfold duckdb.reading.
  destruct (db !! _) as [tb|]; simpl; now rewrite set_conn_same.
Qed.

End EngineReads.

Lemma mapM_map {A B C} (f : B -> outcome C) (g : A -> B) (h : A -> C) (l : list A) :
  (forall a, f (g a) = Return (h a)) -> mapM f (map g l) = Return (map h l).
Proof.
  intros Hf. induction l as [|a l IH]; simpl; [reflexivity|].
  now rewrite Hf, IH.
Qed.

Lemma get_table_info_spec `{PyRuntime} `{Engine} (w : world) :
  analyzer_database.get_table_info w
  = (match conn (db_manager w) with
     | None => Raise (RuntimeError "数据库连接未建立，请先调用 connect()")
     | Some db =>
         if duckdb.is_identifier (table_name (db_manager w)) then
           match db !! duckdb.key (table_name (db_manager w)) with
           | Some tb => Return (info_of_table tb)
           | None => Raise (duckdb.catalog_error (table_name (db_manager w)))
           end
         else Raise (DuckDBError "Parser Error: syntax error")
     end, w).
Proof.
  unfold analyzer_database.get_table_info, bind, analyzer_database.self_table_name,
    analyzer_database.execute_query, lift, ret.
  destruct (conn (db_manager w)) as [db|] eqn:Hc; [|reflexivity].
  rewrite execute_select_count.
  destruct (duckdb.is_identifier _) eqn:Hid; simpl; [|now rewrite set_conn_same].
  unfold duckdb.reading at 1.
  destruct (db !! _) as [tb|] eqn:Htb; simpl; [|now rewrite set_conn_same].
  rewrite execute_describe, Hid. unfold duckdb.reading. rewrite Htb. simpl.
  rewrite (mapM_map _ _ (fun col => VStr (fst col))) by reflexivity.
  rewrite (mapM_map _ _ detail_of_column) by reflexivity.
  now rewrite !set_conn_same.
Qed.

Lemma csv_get_table_info_spec `{Engine} (w : world) :
  csv_analyzer_database.get_table_info w
  = (match conn (db_manager w) with
     | None => Raise (RuntimeError "数据库连接未建立，请先调用 connect()")
     | Some db =>
         if duckdb.is_identifier (table_name (db_manager w)) then
           match db !! duckdb.key (table_name (db_manager w)) with
           | Some tb => Return (fst (info_of_table tb))
           | None => Raise (duckdb.catalog_error (table_name (db_manager w)))
           end
         else Raise (DuckDBError "Parser Error: syntax error")
     end, w).
Proof.
  unfold csv_analyzer_database.get_table_info, csv_analyzer_database.execute_query,
    bind, analyzer_database.self_table_name,
    analyzer_database.execute_query, lift, ret.
  destruct (conn (db_manager w)) as [db|] eqn:Hc; [|reflexivity].
  rewrite execute_select_count.
  destruct (duckdb.is_identifier _) eqn:Hid; simpl; [|now rewrite set_conn_same].
  unfold duckdb.reading at 1.
  destruct (db !! _) as [tb|] eqn:Htb; simpl; [|now rewrite set_conn_same].
  rewrite execute_describe, Hid. unfold duckdb.reading. rewrite Htb. simpl.
  rewrite (mapM_map _ _ (fun col => VStr (fst col))) by reflexivity.
  now rewrite !set_conn_same.
Qed.

(** X1. [connect] is idempotent and never replaces an open connection: on
    a connected manager it returns the database already held and changes
    nothing, so a second [connect] returns what the first did.
    [disconnect] is idempotent too. *)
Theorem X1_connect_disconnect_idempotent (w : world) :
  (forall db, conn (db_manager w) = Some db ->
     analyzer_database.connect w = (Return db, w)) /\
  analyzer_database.connect (snd (analyzer_database.connect w))
    = (fst (analyzer_database.connect w), snd (analyzer_database.connect w)) /\
  analyzer_database.disconnect (snd (analyzer_database.disconnect w))
    = (Return tt, snd (analyzer_database.disconnect w)).
Proof.
  unfold analyzer_database.connect, analyzer_database.disconnect.
  destruct w as [[[db|] tn] file]; simpl; repeat split; try reflexivity.
  - intros db' [= ->]. reflexivity.
  - intros db' [=].
Qed.

(** X2. A connection does not survive [disconnect]: after [disconnect]
    and a new [connect] the database is empty whatever it held before, the
    existence probe answers [False] and [get_table_info] raises. *)
Theorem X2_reconnect_loses_tables `{PyRuntime} `{Engine} (w : world) :
  conn (db_manager (snd (analyzer_database.connect
                           (snd (analyzer_database.disconnect w))))) = Some ∅ /\
  fst (analyzer_database.table_exists
         (snd (analyzer_database.connect (snd (analyzer_database.disconnect w)))))
    = Return false /\
  exists e,
    fst (analyzer_database.get_table_info
           (snd (analyzer_database.connect (snd (analyzer_database.disconnect w)))))
      = Raise e.
Proof.
  assert (Hc : conn (db_manager (snd (analyzer_database.connect
                           (snd (analyzer_database.disconnect w))))) = Some ∅).
  { rewrite connect_connected, disconnect_not_connected. reflexivity. }
  split; [exact Hc|]. rewrite table_exists_spec, get_table_info_spec.
  unfold configured_table. rewrite Hc. simpl. rewrite lookup_empty.
  destruct (duckdb.is_identifier _); simpl; eauto.
Qed.

(** X3. The existence probe and [get_table_info] only read: whatever they
    answer, the manager, its database and the staged file are left as they
    were. *)
Theorem X3_probes_are_read_only `{PyRuntime} `{Engine} (w : world) :
  snd (analyzer_database.table_exists w) = w /\
  snd (analyzer_database.get_table_info w) = w /\
  snd (csv_analyzer_database.get_table_info w) = w.
Proof.
  now rewrite table_exists_spec, get_table_info_spec, csv_get_table_info_spec.
Qed.

(** X4. [get_table_info] returns exactly when [table_exists] answers
    [True] and raises exactly when it answers [False]; without a
    connection the error is the RuntimeError of [execute_query], otherwise
    it is the engine's own error, passed on unchanged. *)
Theorem X4_get_table_info_iff_table_exists `{PyRuntime} `{Engine} (w : world) :
  (fst (analyzer_database.table_exists w) = Return true <->
     exists info, fst (analyzer_database.get_table_info w) = Return info) /\
  (fst (analyzer_database.table_exists w) = Return false <->
     exists e, fst (analyzer_database.get_table_info w) = Raise e) /\
  (conn (db_manager w) = None ->
     fst (analyzer_database.get_table_info w)
       = Raise (RuntimeError "数据库连接未建立，请先调用 connect()")) /\
  (forall db e, conn (db_manager w) = Some db ->
     fst (analyzer_database.get_table_info w) = Raise e ->
     exists msg, e = DuckDBError msg).
Proof.
  rewrite table_exists_spec, get_table_info_spec. unfold configured_table. simpl.
  destruct (conn (db_manager w)) as [db|]; simpl.
  - destruct (duckdb.is_identifier _); simpl.
    + destruct (db !! _) as [tb|]; simpl.
      * split; [split; eauto|]. split; [split; [discriminate|intros [e [=]]]|].
        split; [discriminate|]. intros ? ? _ [=].
      * split; [split; [discriminate|intros [e [=]]]|]. split; [split; eauto|].
        split; [discriminate|]. intros ? ? _ [= <-]. unfold duckdb.catalog_error. eauto.
    + split; [split; [discriminate|intros [e [=]]]|]. split; [split; eauto|].
      split; [discriminate|]. intros ? ? _ [= <-]. eauto.
  - split; [split; [discriminate|intros [e [=]]]|]. split; [split; eauto|].
    split; [reflexivity|]. intros ? ? [=].
Qed.

(** X5. For a table the probe finds, [get_table_info] returns the number
    of its rows, the names of its columns in schema order, and one detail
    per column, in the same order, that carries the column name, the raw
    engine type and the front-end kind of that type. *)
Theorem X5_get_table_info_of_table `{PyRuntime} `{Engine} (w : world) (tb : table) :
  configured_table w = Some tb ->
  exists names details,
    analyzer_database.get_table_info w
      = (Return (VInt (len (tbl_rows tb)), names, details), w) /\
    names = map (fun col => VStr (fst col)) (tbl_schema tb) /\
    map detail_name details = names /\
    map detail_raw_type details = map (fun col => VStr (snd col)) (tbl_schema tb) /\
    map detail_type details
      = map (fun col => analyzer_database.frontend_type (snd col)) (tbl_schema tb).
Proof.
  intros Htb. rewrite get_table_info_spec. unfold configured_table in Htb.
  destruct (conn (db_manager w)) as [db|]; [|discriminate].
  destruct (duckdb.is_identifier _); [|discriminate]. rewrite Htb.
  eexists _, _. split; [reflexivity|]. split; [reflexivity|].
  rewrite !map_map. repeat split.
Qed.

(** X5 at a concrete input: the world after loading the three-line text. *)
Lemma X5_witness_people :
  exists names details,
    @analyzer_database.get_table_info
        {| float_repr := fun _ => ""; decimal_str := fun _ => "" |}
        simple_engine.engine (world_after_load "csv_data")
      = (Return (VInt (len (tbl_rows simple_engine.people)), names, details),
         world_after_load "csv_data") /\
    names = map (fun col => VStr (fst col)) (tbl_schema simple_engine.people) /\
    map detail_name details = names /\
    map detail_raw_type details
      = map (fun col => VStr (snd col)) (tbl_schema simple_engine.people) /\
    map detail_type details
      = map (fun col => analyzer_database.frontend_type (snd col))
            (tbl_schema simple_engine.people).
Proof.
  apply (@X5_get_table_info_of_table _ simple_engine.engine).
  vm_compute. reflexivity.
Defined.

(** X6. The two [get_table_info] agree: the one of [csv_analyzer] returns
    the row count and the column names that the one of [analyzer] returns,
    raises what it raises, and leaves the same world. *)
Theorem X6_get_table_info_versions_agree `{PyRuntime} `{Engine} (w : world) :
  csv_analyzer_database.get_table_info w
  = (match fst (analyzer_database.get_table_info w) with
     | Return (row_count, column_names, _) => Return (row_count, column_names)
     | Raise e => Raise e
     end,
     snd (analyzer_database.get_table_info w)).
Proof.
  rewrite csv_get_table_info_spec, get_table_info_spec. simpl.
  destruct (conn (db_manager w)) as [db|]; [|reflexivity].
  destruct (duckdb.is_identifier _); [|reflexivity].
  now destruct (db !! _).
Qed.

(* ===================================================================== *)
(** * More on ingestion                                                   *)
(* ===================================================================== *)

Lemma loaded_world_conn `{Engine} (c t : string) (w : world) :
  conn (db_manager (loaded_world c t w))
  = Some (loaded_database c t (default duckdb.connect (conn (db_manager w)))).
Proof. reflexivity. Qed.

Lemma loaded_world_table_name `{Engine} (c t : string) (w : world) :
  table_name (db_manager (loaded_world c t w)) = table_name (db_manager w).
Proof. reflexivity. Qed.

Lemma configured_table_loaded `{Engine} (c t : string) (w : world) :
  table_name (db_manager w) = t -> duckdb.is_identifier t = true ->
  configured_table (loaded_world c t w) = read_csv_auto c.
Proof.
  intros Ht Hid. unfold configured_table.
  rewrite loaded_world_conn, loaded_world_table_name, Ht, Hid.
  now apply loaded_database_lookup.
Qed.

(** X7. After a load into the configured table that the engine can read,
    the count the load returned is the row count [get_table_info] reports,
    the column names it reports are those the engine read from the text,
    and the existence probe answers [True]; this holds from any starting
    world, connected or not. *)
Theorem X7_load_then_table_info `{PyRuntime} `{Engine}
    (c t : string) (w : world) (tb : table) :
  table_name (db_manager w) = t ->
  duckdb.is_identifier t = true ->
  read_csv_auto c = Some tb ->
  fst (analyzer_loader.load_csv_from_content c t w) = Return (VInt (len (tbl_rows tb))) /\
  fst (analyzer_database.table_exists
         (snd (analyzer_loader.load_csv_from_content c t w))) = Return true /\
  exists details,
    fst (analyzer_database.get_table_info
           (snd (analyzer_loader.load_csv_from_content c t w)))
    = Return (VInt (len (tbl_rows tb)),
              map (fun col => VStr (fst col)) (tbl_schema tb), details).
Proof.
  intros Ht Hid Hread.
  rewrite load_result, load_world, table_exists_spec, get_table_info_spec.
  unfold loaded_result. rewrite Hid, Hread.
  rewrite (configured_table_loaded c t w Ht Hid), Hread.
  split; [reflexivity|]. split; [reflexivity|].
  rewrite loaded_world_conn, loaded_world_table_name, Ht, Hid.
  rewrite (loaded_database_lookup c t _ Hid), Hread.
  eexists. reflexivity.
Qed.

(** X7 at a concrete input: the three-line text into [csv_data]. *)
Lemma X7_witness_people :
  fst (@analyzer_loader.load_csv_from_content simple_engine.engine
         simple_engine.people_csv "csv_data" initial_world)
    = Return (VInt (len (tbl_rows simple_engine.people))) /\
  fst (@analyzer_database.table_exists simple_engine.engine
         (snd (@analyzer_loader.load_csv_from_content simple_engine.engine
                 simple_engine.people_csv "csv_data" initial_world))) = Return true /\
  exists details,
    fst (@analyzer_database.get_table_info
           {| float_repr := fun _ => ""; decimal_str := fun _ => "" |}
           simple_engine.engine
           (snd (@analyzer_loader.load_csv_from_content simple_engine.engine
                   simple_engine.people_csv "csv_data" initial_world)))
    = Return (VInt (len (tbl_rows simple_engine.people)),
              map (fun col => VStr (fst col)) (tbl_schema simple_engine.people), details).
Proof.
  apply (@X7_load_then_table_info _ simple_engine.engine); vm_compute; reflexivity.
Defined.

(** X8. Replacement is not transactional: a load whose text the engine
    cannot read raises the engine's error and still leaves the target
    table dropped, whatever it held before; the text stays staged and the
    existence probe of the configured table answers [False] afterwards. *)
Theorem X8_failed_load_drops_table `{Engine} (c t : string) (w : world) :
  table_name (db_manager w) = t ->
  duckdb.is_identifier t = true ->
  read_csv_auto c = None ->
  (exists msg, fst (analyzer_loader.load_csv_from_content c t w) = Raise (DuckDBError msg)) /\
  (exists db, conn (db_manager (snd (analyzer_loader.load_csv_from_content c t w))) = Some db
              /\ db !! duckdb.key t = None) /\
  tmp_data_csv (snd (analyzer_loader.load_csv_from_content c t w)) = Some c /\
  fst (analyzer_database.table_exists
         (snd (analyzer_loader.load_csv_from_content c t w))) = Return false.
Proof.
  intros Ht Hid Hread.
  rewrite load_result, load_world, table_exists_spec.
  unfold loaded_result. rewrite Hid, Hread.
  rewrite (configured_table_loaded c t w Ht Hid), Hread.
  split; [eauto|]. split; [|split; reflexivity].
  rewrite loaded_world_conn. eexists. split; [reflexivity|].
  now rewrite (loaded_database_lookup c t _ Hid).
Qed.

(** X8 at a concrete input: the empty text over the loaded table. *)
Lemma X8_witness_empty_text :
  (exists msg,
     fst (@analyzer_loader.load_csv_from_content simple_engine.engine
            "" "csv_data" (world_after_load "csv_data")) = Raise (DuckDBError msg)) /\
  (exists db,
     conn (db_manager (snd (@analyzer_loader.load_csv_from_content simple_engine.engine
                              "" "csv_data" (world_after_load "csv_data")))) = Some db
     /\ db !! "csv_data" = None) /\
  tmp_data_csv (snd (@analyzer_loader.load_csv_from_content simple_engine.engine
                       "" "csv_data" (world_after_load "csv_data"))) = Some "" /\
  fst (@analyzer_database.table_exists simple_engine.engine
         (snd (@analyzer_loader.load_csv_from_content simple_engine.engine
                 "" "csv_data" (world_after_load "csv_data")))) = Return false.
Proof.
  apply (@X8_failed_load_drops_table simple_engine.engine); vm_compute; reflexivity.
Defined.



(* ===================================================================== *)
(** * More on the analysis orchestrator                                   *)
(* ===================================================================== *)

Section Analysis.
Context `{PyRuntime} `{Engine}.

Lemma describe_rows_convert (schema : list (string * string)) :
  mapM (mapM analyzer_utils._convert_cell_value) (map duckdb.describe_row schema)
  = Return (map duckdb.describe_row schema).
Proof.
  induction schema as [|col schema IH]; simpl; [reflexivity|]. now rewrite IH.
Qed.

Lemma describe_rows_processed (tb : table) :
  csv_analyzer_utils.process_query_result
    (map duckdb.describe_row (tbl_schema tb)) (map fst duckdb.describe_columns)
  = Return (describe_payload tb).
Proof.
  unfold csv_analyzer_utils.process_query_result, analyzer_utils.process_query_result,
    describe_payload.
  now rewrite describe_rows_convert, len_map.
Qed.

Lemma summarize_rows_processed (tb : table) (cols : list string) :
  exists p, csv_analyzer_utils.process_query_result (summarize_rows tb) cols = Return p.
Proof.
  unfold csv_analyzer_utils.process_query_result, analyzer_utils.process_query_result.
  destruct (converted_rows_return (summarize_rows tb)) as [processed ->]; [|eauto].
  eapply Forall_impl; [apply summarize_rows_values|]. intros row Hrow.
  eapply Forall_impl; [exact Hrow|]. intros v Hv. simpl in Hv.
  destruct v as [| | | |[]| |]; (reflexivity || discriminate Hv).
Qed.

Lemma describe_spec (t : string) (w : world) :
  csv_analyzer_analyzer.describe t w
  = (match configured_table w with
     | None => Raise (ValueError ("表 '" +:+ t +:+ "' 不存在"))
     | Some configured =>
         match table_named t w with
         | Raise e => Raise e
         | Return tb =>
             Return {| processed_result := describe_payload tb;
                       command := "DESCRIBE";
                       result_table_name := t;
                       source_table_rows := VInt (len (tbl_rows configured)) |}
         end
     end, w).
Proof.
  unfold csv_analyzer_analyzer.describe, csv_analyzer_analyzer._run_analysis_command,
    bind, csv_analyzer_database.table_exists.
  rewrite table_exists_spec.
  destruct (configured_table w) as [configured|] eqn:Hconf; simpl; [|reflexivity].
  rewrite csv_get_table_info_spec. unfold configured_table in Hconf.
  unfold table_named, csv_analyzer_database.execute_query,
    analyzer_database.execute_query.
  destruct (conn (db_manager w)) as [db|] eqn:Hc; [|discriminate].
  destruct (duckdb.is_identifier (table_name _)); [|discriminate].
  rewrite Hconf. simpl.
  change ("DESCRIBE" +:+ " " +:+ t) with ("DESCRIBE " +:+ t).
  rewrite execute_describe.
  destruct (duckdb.is_identifier t); simpl; [|now rewrite set_conn_same].
  unfold duckdb.reading. destruct (db !! duckdb.key t) as [tb|]; simpl;
    [|now rewrite set_conn_same].
  unfold lift. rewrite describe_rows_processed. unfold ret.
  now rewrite set_conn_same.
Qed.

Lemma summarize_spec (t : string) (w : world) :
  csv_analyzer_analyzer.summarize t w
  = (match configured_table w with
     | None => Raise (ValueError ("表 '" +:+ t +:+ "' 不存在"))
     | Some configured =>
         match table_named t w with
         | Raise e => Raise e
         | Return tb =>
             analysis_of "SUMMARIZE" t duckdb.summarize_columns
               (summarize_rows tb) configured
         end
     end, w).
Proof.
  unfold csv_analyzer_analyzer.summarize, csv_analyzer_analyzer._run_analysis_command,
    bind, csv_analyzer_database.table_exists.
  rewrite table_exists_spec.
  destruct (configured_table w) as [configured|] eqn:Hconf; simpl; [|reflexivity].
  rewrite csv_get_table_info_spec. unfold configured_table in Hconf.
  unfold table_named, csv_analyzer_database.execute_query,
    analyzer_database.execute_query.
  destruct (conn (db_manager w)) as [db|] eqn:Hc; [|discriminate].
  destruct (duckdb.is_identifier (table_name _)); [|discriminate].
  rewrite Hconf. simpl.
  change ("SUMMARIZE" +:+ " " +:+ t) with ("SUMMARIZE " +:+ t).
  rewrite execute_summarize.
  destruct (duckdb.is_identifier t); simpl; [|now rewrite set_conn_same].
  unfold duckdb.reading. destruct (db !! duckdb.key t) as [tb|]; simpl;
    [|now rewrite set_conn_same].
  unfold lift, analysis_of, ret.
  destruct (csv_analyzer_utils.process_query_result _ _); now rewrite set_conn_same.
Qed.

Lemma custom_query_describe (t : string) (w : world) :
  csv_analyzer_analyzer.custom_query ("DESCRIBE " +:+ t) w
  = (match table_named t w with
     | Raise e => Raise e
     | Return tb =>
         Return {| query_payload := describe_payload tb;
                   query := "DESCRIBE " +:+ t |}
     end, w).
Proof.
  unfold csv_analyzer_analyzer.custom_query, bind, table_named,
    csv_analyzer_database.execute_query, analyzer_database.execute_query.
  destruct (conn (db_manager w)) as [db|] eqn:Hc; [|reflexivity].
  rewrite execute_describe.
  destruct (duckdb.is_identifier t); simpl; [|now rewrite set_conn_same].
  unfold duckdb.reading. destruct (db !! duckdb.key t) as [tb|]; simpl;
    [|now rewrite set_conn_same].
  unfold lift. rewrite describe_rows_processed. unfold ret.
  now rewrite set_conn_same.
Qed.

End Analysis.

(** X10. Without a connection an analysis does not report the missing
    connection: the probe swallows the RuntimeError, so [describe] and
    [summarize] (any command, any table name) raise the ValueError that
    says the table does not exist, while [custom_query], which has no
    existence check, raises the RuntimeError; the world is left as it was. *)
Theorem X10_analysis_without_connection `{PyRuntime} `{Engine} (w : world) :
  conn (db_manager w) = None ->
  (forall command t,
     csv_analyzer_analyzer._run_analysis_command command t w
     = (Raise (ValueError ("表 '" +:+ t +:+ "' 不存在")), w)) /\
  (forall q,
     csv_analyzer_analyzer.custom_query q w
     = (Raise (RuntimeError "数据库连接未建立，请先调用 connect()"), w)).
Proof.
  intros Hc. split.
  - intros command t. apply run_analysis_without_configured_table.
    unfold csv_analyzer_database.table_exists. rewrite table_exists_spec.
    unfold configured_table. now rewrite Hc.
  - intros q. unfold csv_analyzer_analyzer.custom_query, bind,
      csv_analyzer_database.execute_query, analyzer_database.execute_query.
    now rewrite Hc.
Qed.

(** X10 at a concrete input: the world of a new manager. *)
Lemma X10_witness_new_manager :
  (forall command t,
     @csv_analyzer_analyzer._run_analysis_command
        {| float_repr := fun _ => ""; decimal_str := fun _ => "" |}
        simple_engine.engine command t initial_world
     = (Raise (ValueError ("表 '" +:+ t +:+ "' 不存在")), initial_world)) /\
  (forall q,
     @csv_analyzer_analyzer.custom_query
        {| float_repr := fun _ => ""; decimal_str := fun _ => "" |}
        simple_engine.engine q initial_world
     = (Raise (RuntimeError "数据库连接未建立，请先调用 connect()"), initial_world)).
Proof.
  apply (@X10_analysis_without_connection _ simple_engine.engine). reflexivity.
Defined.

(** X11. [describe] and [summarize] of a table whose name is a plain
    identifier only read: on every world, whether they return or raise,
    the manager, its database and the staged file are left as they were. *)
Theorem X11_analysis_is_read_only `{PyRuntime} `{Engine} (t : string) (w : world) :
  duckdb.is_identifier t = true ->
  snd (csv_analyzer_analyzer.describe t w) = w /\
  snd (csv_analyzer_analyzer.summarize t w) = w.
Proof. intros _. now rewrite describe_spec, summarize_spec. Qed.

(** X11 at a concrete input: [csv_data] after the load. *)
Lemma X11_witness_people :
  snd (@csv_analyzer_analyzer.describe
         {| float_repr := fun _ => ""; decimal_str := fun _ => "" |}
         simple_engine.engine "csv_data" (world_after_load "csv_data"))
    = world_after_load "csv_data" /\
  snd (@csv_analyzer_analyzer.summarize
         {| float_repr := fun _ => ""; decimal_str := fun _ => "" |}
         simple_engine.engine "csv_data" (world_after_load "csv_data"))
    = world_after_load "csv_data".
Proof.
  apply (@X11_analysis_is_read_only _ simple_engine.engine). vm_compute. reflexivity.
Defined.

(** X12. [describe] and [summarize] share their control flow: on the same
    table name and world one raises exactly when the other does, with the
    same exception, and when they return they carry the same table name
    and the same [source_table_rows]. *)
Theorem X12_describe_summarize_fail_alike `{PyRuntime} `{Engine}
    (t : string) (w : world) :
  (forall e, fst (csv_analyzer_analyzer.describe t w) = Raise e <->
             fst (csv_analyzer_analyzer.summarize t w) = Raise e) /\
  (forall d s,
     fst (csv_analyzer_analyzer.describe t w) = Return d ->
     fst (csv_analyzer_analyzer.summarize t w) = Return s ->
     result_table_name d = result_table_name s /\
     source_table_rows d = source_table_rows s /\
     command d = "DESCRIBE" /\ command s = "SUMMARIZE").
Proof.
  rewrite describe_spec, summarize_spec. simpl.
  destruct (configured_table w) as [configured|].
  - destruct (table_named t w) as [tb|e'].
    + unfold analysis_of.
      destruct (summarize_rows_processed tb (map fst duckdb.summarize_columns))
        as [p ->].
      split; [intros e; split; discriminate|].
      intros d s [= <-] [= <-]. repeat split.
    + split; [intros e; reflexivity | intros d s [=]].
  - split; [intros e; reflexivity | intros d s [=]].
Qed.

(** X13. [describe] is [custom_query] behind an existence check: whenever
    [describe(t)] returns, [custom_query] of the text DESCRIBE t returns
    the same processed payload, with that text as its query, and leaves
    the same world. *)
Theorem X13_describe_is_checked_custom_query `{PyRuntime} `{Engine}
    (t : string) (w : world) (r : analysis_result) :
  fst (csv_analyzer_analyzer.describe t w) = Return r ->
  csv_analyzer_analyzer.custom_query ("DESCRIBE " +:+ t) w
  = (Return {| query_payload := processed_result r; query := "DESCRIBE " +:+ t |},
     snd (csv_analyzer_analyzer.describe t w)).
Proof.
  rewrite describe_spec, custom_query_describe. simpl.
  destruct (configured_table w); [|discriminate].
  destruct (table_named t w); [|discriminate].
  now intros [= <-].
Qed.

(** X14. The payload [describe] returns is well shaped: it has one row
    per column of the table asked for, six columns, every row of length
    [column_count], the command and table name asked for, and as
    [source_table_rows] the row count of the configured table. *)
Theorem X14_describe_payload_shape `{PyRuntime} `{Engine}
    (t : string) (w : world) (r : analysis_result) :
  fst (csv_analyzer_analyzer.describe t w) = Return r ->
  exists tb configured,
    table_named t w = Return tb /\ configured_table w = Some configured /\
    row_count (processed_result r) = len (tbl_schema tb) /\
    column_count (processed_result r) = 6%Z /\
    len (columns (processed_result r)) = column_count (processed_result r) /\
    Forall (fun row => len row = column_count (processed_result r))
           (data (processed_result r)) /\
    command r = "DESCRIBE" /\ result_table_name r = t /\
    source_table_rows r = VInt (len (tbl_rows configured)).
Proof.
  rewrite describe_spec. simpl.
  destruct (configured_table w) as [configured|]; [|discriminate].
  destruct (table_named t w) as [tb|]; [|discriminate].
  intros [= <-]. exists tb, configured. simpl. repeat split.
  induction (tbl_schema tb) as [|col cols IH]; simpl; constructor;
    [reflexivity | exact IH].
Qed.

(** X13 at a concrete input: [describe("csv_data")] after the load. *)
Lemma X13_witness_people :
  @csv_analyzer_analyzer.custom_query
     {| float_repr := fun _ => ""; decimal_str := fun _ => "" |}
     simple_engine.engine ("DESCRIBE " +:+ "csv_data") (world_after_load "csv_data")
  = (Return {| query_payload :=
                 {| data := [[VStr "id"; VStr "VARCHAR"; VStr "YES"; VNone; VNone; VNone];
                             [VStr "name"; VStr "VARCHAR"; VStr "YES"; VNone; VNone; VNone]];
                    columns := ["column_name"; "column_type"; "null"; "key"; "default"; "extra"];
                    row_count := 2;
                    column_count := 6 |};
               query := "DESCRIBE " +:+ "csv_data" |},
     snd (@csv_analyzer_analyzer.describe
            {| float_repr := fun _ => ""; decimal_str := fun _ => "" |}
            simple_engine.engine "csv_data" (world_after_load "csv_data"))).
Proof.
  apply (@X13_describe_is_checked_custom_query _ simple_engine.engine "csv_data"
           (world_after_load "csv_data")
           {| processed_result :=
                {| data := [[VStr "id"; VStr "VARCHAR"; VStr "YES"; VNone; VNone; VNone];
                            [VStr "name"; VStr "VARCHAR"; VStr "YES"; VNone; VNone; VNone]];
                   columns := ["column_name"; "column_type"; "null"; "key"; "default"; "extra"];
                   row_count := 2;
                   column_count := 6 |};
              command := "DESCRIBE";
              result_table_name := "csv_data";
              source_table_rows := VInt 2 |}).
  vm_compute. reflexivity.
Defined.

(** X14 at a concrete input: [describe("csv_data")] after the load. *)
Lemma X14_witness_people :
  exists tb configured,
    table_named "csv_data" (world_after_load "csv_data") = Return tb /\
    configured_table (world_after_load "csv_data") = Some configured /\
    2%Z = len (tbl_schema tb) /\
    6%Z = 6%Z /\
    len ["column_name"; "column_type"; "null"; "key"; "default"; "extra"] = 6%Z /\
    Forall (fun row => len row = 6%Z)
           [[VStr "id"; VStr "VARCHAR"; VStr "YES"; VNone; VNone; VNone];
            [VStr "name"; VStr "VARCHAR"; VStr "YES"; VNone; VNone; VNone]] /\
    "DESCRIBE" = "DESCRIBE" /\ "csv_data" = "csv_data" /\
    VInt 2 = VInt (len (tbl_rows configured)).
Proof.
  apply (@X14_describe_payload_shape
           {| float_repr := fun _ => ""; decimal_str := fun _ => "" |}
           simple_engine.engine "csv_data" (world_after_load "csv_data")
           {| processed_result :=
                {| data := [[VStr "id"; VStr "VARCHAR"; VStr "YES"; VNone; VNone; VNone];
                            [VStr "name"; VStr "VARCHAR"; VStr "YES"; VNone; VNone; VNone]];
                   columns := ["column_name"; "column_type"; "null"; "key"; "default"; "extra"];
                   row_count := 2;
                   column_count := 6 |};
              command := "DESCRIBE";
              result_table_name := "csv_data";
              source_table_rows := VInt 2 |}).
  vm_compute. reflexivity.
Defined.

(* ===================================================================== *)
(** * More on the value normalizer                                        *)
(* ===================================================================== *)


Section Reprocessing.
Context `{PyRuntime}.

Lemma converted_row_fixed (row row' : list value) :
  mapM analyzer_utils._convert_cell_value row = Return row' ->
  mapM analyzer_utils._convert_cell_value row' = Return row'.
Proof.
  intros Hm. apply mapM_Forall2 in Hm.
  rewrite <- (map_id row') at 2. apply mapM_fixes.
  induction Hm as [|v v' row row' Hv _ IH]; constructor; [|exact IH].
  apply convert_fixes_normalized. exact (convert_normalized v v' Hv).
Qed.

Lemma converted_rows_fixed (rows processed : list (list value)) :
  mapM (mapM analyzer_utils._convert_cell_value) rows = Return processed ->
  mapM (mapM analyzer_utils._convert_cell_value) processed = Return processed.
Proof.
  intros Hm. apply mapM_Forall2 in Hm.
  rewrite <- (map_id processed) at 2. apply mapM_fixes.
  induction Hm as [|row row' rows rows' Hrow _ IH]; constructor; [|exact IH].
  exact (converted_row_fixed row row' Hrow).
Qed.

Lemma rows_have_width_lengths (n : Z) (rows rows' : list (list value)) :
  map len rows' = map len rows ->
  analyzer_utils.rows_have_width n rows' = analyzer_utils.rows_have_width n rows.
Proof.
  revert rows'. induction rows as [|row rows IH]; intros [|row' rows']; simpl;
    try discriminate; [reflexivity|].
  intros [= Hrow Hrows]. now rewrite Hrow, (IH rows' Hrows).
Qed.

End Reprocessing.

(** X16. Normalizing keeps what [validate_data_format] checks and is
    idempotent on payloads: when a payload is returned, its rows under its
    columns are valid exactly when the rows received were, and processing
    its data again under its columns returns the same payload. *)
Theorem X16_process_keeps_validity `{PyRuntime}
    (rows : list (list value)) (cols : list string) (p : payload) :
  analyzer_utils.process_query_result rows cols = Return p ->
  analyzer_utils.validate_data_format (data p) (columns p)
    = analyzer_utils.validate_data_format rows cols /\
  analyzer_utils.process_query_result (data p) (columns p) = Return p.
Proof.
  intros Hp. apply process_returns in Hp as [processed [Hm ->]]. simpl. split.
  - unfold analyzer_utils.validate_data_format.
    rewrite (rows_have_width_lengths _ rows processed (converted_rows_lengths _ _ Hm)).
    pose proof (mapM_length _ _ _ Hm) as Hlen.
    destruct rows, processed; try discriminate Hlen; reflexivity.
  - unfold analyzer_utils.process_query_result.
    now rewrite (converted_rows_fixed rows processed Hm).
Qed.

(** X16 at a concrete input: a Decimal, an int and a date under two
    columns. *)
Lemma X16_witness_mixed_row :
  analyzer_utils.validate_data_format
      [[VFloat (float_of_finite false 314 (-2)); VInt 7; VStr "2024-01-31"]] ["a"; "b"]
    = @analyzer_utils.validate_data_format
        [[VDecimal (Decimal false 314 (-2)); VInt 7; VObject "date" "2024-01-31"]]
        ["a"; "b"] /\
  @analyzer_utils.process_query_result
      {| float_repr := fun _ => ""; decimal_str := fun _ => "" |}
      [[VFloat (float_of_finite false 314 (-2)); VInt 7; VStr "2024-01-31"]] ["a"; "b"]
    = Return {| data := [[VFloat (float_of_finite false 314 (-2)); VInt 7;
                          VStr "2024-01-31"]];
                columns := ["a"; "b"]; row_count := 1; column_count := 2 |}.
Proof.
  apply (@X16_process_keeps_validity
           {| float_repr := fun _ => ""; decimal_str := fun _ => "" |}
           [[VDecimal (Decimal false 314 (-2)); VInt 7; VObject "date" "2024-01-31"]]
           ["a"; "b"]
           {| data := [[VFloat (float_of_finite false 314 (-2)); VInt 7;
                        VStr "2024-01-31"]];
              columns := ["a"; "b"]; row_count := 1; column_count := 2 |}).
  reflexivity.
Defined.

(* ===================================================================== *)
(** * The scripts                                                         *)
(* ===================================================================== *)




Lemma to_upper_idempotent (c : ascii) : to_upper (to_upper c) = to_upper c.
Proof. destruct c as [[] [] [] [] [] [] [] []]; vm_compute; reflexivity. Qed.

Lemma upper_idempotent (s : string) : upper (upper s) = upper s.
Proof.
  induction s as [|c s IH]; simpl; [reflexivity|].
  now rewrite to_upper_idempotent, IH.
Qed.

Section Scripts.
Context `{Engine}.


End Scripts.


Lemma describe_rows_without_numbers `{PyRuntime} (schema : list (string * string)) :
  map (map utils.process_cell) (map duckdb.describe_row schema)
  = map duckdb.describe_row schema.
Proof.
  induction schema as [|col schema IH]; simpl; [reflexivity|]. now rewrite IH.
Qed.

Lemma run_analysis_command_spec `{PyRuntime} `{Engine}
    (command_type : string) (st : script_state) :
  run_analysis.run_analysis_command command_type st
  = match script_conn st !! "csv_data" with
    | None => (Raise (duckdb.catalog_error "csv_data"), st)
    | Some _ =>
        match conn_execute (upper command_type +:+ " csv_data") st with
        | (Raise e, st') => (Raise e, st')
        | (Return cursor, st') =>
            (Return (utils.process_query_result (fetchall cursor)
                       (map fst (description cursor))), st')
        end
    end.
Proof.
  unfold run_analysis.run_analysis_command, utils.validate_table_exists.
  unfold conn_execute at 1.
  change "SELECT count(*) FROM csv_data" with ("SELECT count(*) FROM " +:+ "csv_data").
  rewrite execute_select_count.
  change (duckdb.is_identifier "csv_data") with true. cbv iota.
  unfold duckdb.reading.
  destruct st as [file db]. simpl script_conn. simpl script_file.
  change (duckdb.key "csv_data") with "csv_data".
  destruct (db !! "csv_data") as [tb|]; reflexivity.
Qed.

(** X20. [run_analysis_command] reads its command without regard to
    case: it does on any text what it does on that text in upper case.
    When the connection holds no table [csv_data] it raises the engine's
    error for that table, whatever the command, before the command is
    sent, and the state is left as it was. *)
Theorem X20_run_analysis_script `{PyRuntime} `{Engine}
    (command_type : string) (st : script_state) :
  run_analysis.run_analysis_command command_type st
    = run_analysis.run_analysis_command (upper command_type) st /\
  (script_conn st !! "csv_data" = None ->
   run_analysis.run_analysis_command command_type st
     = (Raise (duckdb.catalog_error "csv_data"), st)).
Proof.
  rewrite !run_analysis_command_spec, upper_idempotent. split; [reflexivity|].
  now intros ->.
Qed.

(** X21. On a connection that holds [csv_data], the script run with any
    spelling of DESCRIBE returns the processed payload that
    [DataAnalyzer.describe] returns for [csv_data] on a manager with that
    connection, and leaves the state as it was: DESCRIBE rows hold texts
    and None only, on which the two conversions agree. *)
Theorem X21_describe_script_agrees_with_analyzer `{PyRuntime} `{Engine}
    (command_type : string) (file : option string) (db : gmap string table)
    (r : analysis_result) :
  upper command_type = "DESCRIBE" ->
  fst (csv_analyzer_analyzer.describe "csv_data"
         {| db_manager := {| conn := Some db; table_name := "csv_data" |};
            tmp_data_csv := file |}) = Return r ->
  run_analysis.run_analysis_command command_type
      {| script_file := file; script_conn := db |}
  = (Return (processed_result r), {| script_file := file; script_conn := db |}).
Proof.
  intros Hup. rewrite describe_spec, run_analysis_command_spec, Hup.
  unfold configured_table, table_named.
  cbn [fst conn db_manager table_name script_conn].
  change (duckdb.is_identifier "csv_data") with true. cbv iota.
  change (duckdb.key "csv_data") with "csv_data".
  destruct (db !! "csv_data") as [tb|] eqn:Htb; [|discriminate].
  intros [= <-]. unfold conn_execute. cbn [script_file script_conn].
  change ("DESCRIBE" +:+ " csv_data") with ("DESCRIBE " +:+ "csv_data").
  rewrite execute_describe.
  change (duckdb.is_identifier "csv_data") with true. cbv iota.
  unfold duckdb.reading. change (duckdb.key "csv_data") with "csv_data".
  rewrite Htb. cbn [fetchall description cursor_rows processed_result].
  unfold utils.process_query_result, describe_payload.
  now rewrite describe_rows_without_numbers, len_map.
Qed.

(** X20 at a concrete input: SUMMARIZE in lower case on an empty database. *)
Lemma X20_witness_empty_database :
  @run_analysis.run_analysis_command
      {| float_repr := fun _ => ""; decimal_str := fun _ => "" |}
      simple_engine.engine "summarize" {| script_file := None; script_conn := ∅ |}
    = @run_analysis.run_analysis_command
      {| float_repr := fun _ => ""; decimal_str := fun _ => "" |}
      simple_engine.engine (upper "summarize") {| script_file := None; script_conn := ∅ |} /\
  (script_conn {| script_file := None; script_conn := ∅ |} !! "csv_data" = None ->
   @run_analysis.run_analysis_command
      {| float_repr := fun _ => ""; decimal_str := fun _ => "" |}
      simple_engine.engine "summarize" {| script_file := None; script_conn := ∅ |}
     = (Raise (duckdb.catalog_error "csv_data"),
        {| script_file := None; script_conn := ∅ |})).
Proof.
  apply (@X20_run_analysis_script _ simple_engine.engine).
Defined.

(** X21 at a concrete input: [describe] in lower case over the table read
    from the three-line text. *)
Lemma X21_witness_people :
  @run_analysis.run_analysis_command
      {| float_repr := fun _ => ""; decimal_str := fun _ => "" |}
      simple_engine.engine "describe"
      {| script_file := None; script_conn := {[ "csv_data" := simple_engine.people ]} |}
  = (Return
       {| data := [[VStr "id"; VStr "VARCHAR"; VStr "YES"; VNone; VNone; VNone];
                   [VStr "name"; VStr "VARCHAR"; VStr "YES"; VNone; VNone; VNone]];
          columns := ["column_name"; "column_type"; "null"; "key"; "default"; "extra"];
          row_count := 2;
          column_count := 6 |},
     {| script_file := None; script_conn := {[ "csv_data" := simple_engine.people ]} |}).
Proof.
  apply (@X21_describe_script_agrees_with_analyzer _ simple_engine.engine
           "describe" None {[ "csv_data" := simple_engine.people ]}
           {| processed_result :=
                {| data := [[VStr "id"; VStr "VARCHAR"; VStr "YES"; VNone; VNone; VNone];
                            [VStr "name"; VStr "VARCHAR"; VStr "YES"; VNone; VNone; VNone]];
                   columns := ["column_name"; "column_type"; "null"; "key"; "default"; "extra"];
                   row_count := 2;
                   column_count := 6 |};
              command := "DESCRIBE";
              result_table_name := "csv_data";
              source_table_rows := VInt 2 |});
    vm_compute; reflexivity.
Defined.

(* ===================================================================== *)
(** * The package                                                         *)
(* ===================================================================== *)

Lemma initialize_spec (p : package) :
  csv_analyzer.initialize p
  = (Return tt,
     {| instances := Some {| conn := Some ∅; table_name := "csv_data" |};
        package_file := package_file p |}).
Proof. reflexivity. Qed.

(** X22. Before [initialize] the convenience functions refuse to run:
    [load_csv], [describe_data] and [summarize_data] raise the
    RuntimeError that asks for [initialize()] and leave the package as it
    was. *)
Theorem X22_package_needs_initialize `{PyRuntime} `{Engine} (p : package) :
  instances p = None ->
  (forall c, csv_analyzer.load_csv c p
             = (Raise (RuntimeError "包未初始化，请先调用 initialize()"), p)) /\
  csv_analyzer.describe_data p
    = (Raise (RuntimeError "包未初始化，请先调用 initialize()"), p) /\
  csv_analyzer.summarize_data p
    = (Raise (RuntimeError "包未初始化，请先调用 initialize()"), p).
Proof.
  intros Hnone.
  unfold csv_analyzer.load_csv, csv_analyzer.describe_data,
    csv_analyzer.summarize_data.
  rewrite Hnone. repeat split.
Qed.

(** X22 at a concrete input: the package before [initialize]. *)
Lemma X22_witness_fresh_package :
  (forall c, @csv_analyzer.load_csv simple_engine.engine c fresh_package
             = (Raise (RuntimeError "包未初始化，请先调用 initialize()"), fresh_package)) /\
  @csv_analyzer.describe_data
      {| float_repr := fun _ => ""; decimal_str := fun _ => "" |}
      simple_engine.engine fresh_package
    = (Raise (RuntimeError "包未初始化，请先调用 initialize()"), fresh_package) /\
  @csv_analyzer.summarize_data
      {| float_repr := fun _ => ""; decimal_str := fun _ => "" |}
      simple_engine.engine fresh_package
    = (Raise (RuntimeError "包未初始化，请先调用 initialize()"), fresh_package).
Proof.
  apply (@X22_package_needs_initialize _ simple_engine.engine). reflexivity.
Defined.

(** X23. [initialize] starts over: whatever the package held, it returns
    with new instances around a new manager connected to an empty
    database, the staged file untouched; so a table loaded before is gone
    and [describe_data] and [summarize_data] raise the ValueError for
    [csv_data] until the next load. *)
Theorem X23_initialize_starts_over `{PyRuntime} `{Engine} (p : package) :
  fst (csv_analyzer.initialize p) = Return tt /\
  instances (snd (csv_analyzer.initialize p))
    = Some {| conn := Some ∅; table_name := "csv_data" |} /\
  package_file (snd (csv_analyzer.initialize p)) = package_file p /\
  csv_analyzer.describe_data (snd (csv_analyzer.initialize p))
    = (Raise (ValueError "表 'csv_data' 不存在"), snd (csv_analyzer.initialize p)) /\
  csv_analyzer.summarize_data (snd (csv_analyzer.initialize p))
    = (Raise (ValueError "表 'csv_data' 不存在"), snd (csv_analyzer.initialize p)).
Proof.
  rewrite initialize_spec. simpl.
  unfold csv_analyzer.describe_data, csv_analyzer.summarize_data,
    csv_analyzer.on_instances. simpl.
  rewrite describe_spec, summarize_spec. unfold configured_table. simpl.
  change (duckdb.is_identifier "csv_data") with true. cbv iota.
  rewrite lookup_empty. repeat split.
Qed.

(** X24. The path of the host: after [initialize], a [load_csv] of a
    text the engine can read returns the number of rows read, and
    [describe_data] then returns a payload for [csv_data] under the
    command DESCRIBE with one row per column read, six columns, and that
    number of rows as [source_table_rows]. *)
Theorem X24_initialize_load_describe `{PyRuntime} `{Engine}
    (p : package) (c : string) (tb : table) :
  read_csv_auto c = Some tb ->
  fst (csv_analyzer.load_csv c (snd (csv_analyzer.initialize p)))
    = Return (VInt (len (tbl_rows tb))) /\
  exists r,
    fst (csv_analyzer.describe_data
           (snd (csv_analyzer.load_csv c (snd (csv_analyzer.initialize p))))) = Return r /\
    command r = "DESCRIBE" /\ result_table_name r = "csv_data" /\
    source_table_rows r = VInt (len (tbl_rows tb)) /\
    row_count (processed_result r) = len (tbl_schema tb) /\
    column_count (processed_result r) = 6%Z /\
    map (fun row => row !! 0%nat) (data (processed_result r))
      = map (fun col => Some (VStr (fst col))) (tbl_schema tb).
Proof.
  intros Hread. rewrite initialize_spec. simpl.
  unfold csv_analyzer.load_csv, csv_analyzer.describe_data,
    csv_analyzer.on_instances, csv_analyzer_loader.load_csv_from_content. simpl.
  rewrite (surjective_pairing (analyzer_loader.load_csv_from_content _ _ _)).
  rewrite load_result, load_world. unfold loaded_result.
  change (duckdb.is_identifier "csv_data") with true. cbv iota. rewrite Hread.
  split; [reflexivity|]. simpl.
  rewrite (surjective_pairing (csv_analyzer_analyzer.describe _ _)).
  rewrite describe_spec. simpl.
  unfold configured_table, table_named, loaded_database. simpl.
  change (duckdb.is_identifier "csv_data") with true. cbv iota.
  rewrite Hread, lookup_insert_eq. eexists. split; [reflexivity|]. simpl.
  repeat split.
  rewrite !map_map. apply map_ext. intros col. reflexivity.
Qed.

(** X24 at a concrete input: the three-line text on a new package. *)
Lemma X24_witness_people :
  fst (@csv_analyzer.load_csv simple_engine.engine simple_engine.people_csv
         (snd (csv_analyzer.initialize fresh_package)))
    = Return (VInt (len (tbl_rows simple_engine.people))) /\
  exists r,
    fst (@csv_analyzer.describe_data
           {| float_repr := fun _ => ""; decimal_str := fun _ => "" |}
           simple_engine.engine
           (snd (@csv_analyzer.load_csv simple_engine.engine simple_engine.people_csv
                   (snd (csv_analyzer.initialize fresh_package))))) = Return r /\
    command r = "DESCRIBE" /\ result_table_name r = "csv_data" /\
    source_table_rows r = VInt (len (tbl_rows simple_engine.people)) /\
    row_count (processed_result r) = len (tbl_schema simple_engine.people) /\
    column_count (processed_result r) = 6%Z /\
    map (fun row => row !! 0%nat) (data (processed_result r))
      = map (fun col => Some (VStr (fst col))) (tbl_schema simple_engine.people).
Proof.
  apply (@X24_initialize_load_describe _ simple_engine.engine).
  vm_compute. reflexivity.
Defined.
